(** * flower-prometheus-exporter: the monitor threads of [monitors.py]

    A shallow embedding of [MonitorThread], [QueueMonitorThread] and
    [WorkerMonitorThread], and the properties of their publish step
    ([convert_data_to_prometheus]), their start-up reset ([setup_metrics])
    and their poll loop ([get_metrics]).

    The three module-level gauges are kept in one finite map from
    (gauge, label values) to the value of that child.  A computation
    reads the registry it starts from and emits the events it performs
    (gauge calls, log calls, sleeps, HTTP requests); the registry it
    leaves is the replay of those events. *)

From Stdlib Require Import ZArith String List Lia.
From stdpp Require Import base option gmap strings list pretty.

Local Open Scope Z_scope.

(** ** Decoded JSON, as [json.loads] returns it

    [F] is the type of Python floats.  A dict is an association list in
    insertion order whose keys are pairwise distinct, read by its first
    match. *)

#[local] Unset Elimination Schemes.
Inductive json (F : Type) : Type :=
  | JNull
  | JBool (b : bool)
  | JInt (n : Z)
  | JFloat (x : F)
  | JStr (s : string)
  | JArr (items : list (json F))
  | JObj (fields : list (string * json F)).

#[local] Set Elimination Schemes.

Arguments JNull {F}.
Arguments JBool {F} b.
Arguments JInt {F} n.
Arguments JFloat {F} x.
Arguments JStr {F} s.
Arguments JArr {F} items.
Arguments JObj {F} fields.

(** ** Exceptions and results *)

Inductive exn : Type :=
  | KeyError (key : string)
  | TypeError
  | AttributeError
  | ValueError
  | OverflowError
  | JSONDecodeError
  | RequestException.

Inductive result (A : Type) : Type :=
  | Ok (a : A)
  | Raise (e : exn).

Arguments Ok {A} a.
Arguments Raise {A} e.

Definition is_ok {A} (r : result A) : bool :=
  match r with Ok _ => true | Raise _ => false end.

(** ** The gauges of the module *)

Inductive gauge : Type := TASKS_QUEUE | WORKERS | TASKS_WORKER.

Definition gauge_name (g : gauge) : string :=
  match g with
  | TASKS_QUEUE => "celery_tasks_by_queue"
  | WORKERS => "celery_workers"
  | TASKS_WORKER => "celery_tasks_by_worker"
  end.

Definition labelnames (g : gauge) : list string :=
  match g with
  | TASKS_QUEUE => ["flower"; "queue"]
  | WORKERS => ["flower"; "status"]
  | TASKS_WORKER => ["flower"; "worker"; "status"]
  end.

Definition gauge_code (g : gauge) : nat :=
  match g with TASKS_QUEUE => 0%nat | WORKERS => 1%nat | TASKS_WORKER => 2%nat end.

Definition gauge_decode (n : nat) : option gauge :=
  match n with
  | 0%nat => Some TASKS_QUEUE
  | 1%nat => Some WORKERS
  | 2%nat => Some TASKS_WORKER
  | _ => None
  end.

#[global] Instance gauge_eq_dec : EqDecision gauge.
Proof. solve_decision. Defined.

#[global] Program Instance gauge_countable : Countable gauge :=
  inj_countable gauge_code gauge_decode _.
Next Obligation. by intros []. Qed.

(** One time series: a gauge and the label values of one child, in the
    order of [labelnames]. *)
Abbreviation series := (gauge * list string)%type.

Inductive logger : Type := RootLogger | MonitorLogger (flower_host : string).

Inductive level : Type := DEBUG | INFO | ERROR.

(** What [requests.get] did, as the poll loop sees it. [body] is the
    decoded body, [None] when it is not JSON. *)
Inductive http_reply (F : Type) : Type :=
  | ConnectionError (msg : string)
  | OtherRequestError
  | Response (status_code : Z) (body : option (json F)).

Arguments ConnectionError {F} msg.
Arguments OtherRequestError {F}.
Arguments Response {F} status_code body.

Inductive poller : Type := QueueMonitorThread | WorkerMonitorThread.

(** ** The coercions the module relies on

    [float] on an int and on a str ([None] when it raises), the truth
    value of a float, and [str] on a decoded value, as the interpreter
    and [prometheus_client] apply them: [labels] passes every label value
    through [str], [set] passes its argument through [float]. [fzero] is
    the 0.0 a new child starts from. *)
Class client : Type := Client {
  gval : Type;
  fzero : gval;
  float_of_int : Z → option gval;
  float_of_str : string → option gval;
  float_truthy : gval → bool;
  py_str : json gval → string
}.

(** ** A client on integer readings

    An instance on which the model can be evaluated: gauge values are
    integers, [float] is the identity on the integers a double holds
    exactly, [str] is the identity on strings. *)
Module IntClient.

Definition int_float_of_int (n : Z) : option Z :=
  if decide (Z.abs n ≤ 2 ^ 53) then Some n else None.

Definition int_py_str (v : json Z) : string :=
  match v with
  | JStr s => s
  | JInt n => pretty n
  | JBool true => "True"
  | JBool false => "False"
  | JNull => "None"
  | JFloat x => pretty x +:+ ".0"
  | JArr _ => "[...]"
  | JObj _ => "{...}"
  end.

Definition int_client : client :=
  {| gval := Z;
     fzero := 0;
     float_of_int := int_float_of_int;
     float_of_str := λ _, None;
     float_truthy := λ x, negb (x =? 0);
     py_str := int_py_str |}.


(** *** Payloads and registries to evaluate on *)

(** The workers of the end-to-end scenario: [w1] online with five
    succeeded tasks, [w2] offline. *)
Definition workers_two : list (json Z) :=
  [JObj [("hostname", JStr "w1"); ("status", JBool true); ("task-succeeded", JInt 5)];
   JObj [("hostname", JStr "w2"); ("status", JBool false)]].

Definition dashboard_two : json Z := JObj [("data", JArr workers_two)].


(** A dashboard without workers. *)
Definition dashboard_empty : json Z := JObj [("data", JArr [])].

(** Workers of which the second has no [status]. *)
Definition workers_no_status : list (json Z) :=
  [JObj [("hostname", JStr "w1"); ("status", JBool true)];
   JObj [("hostname", JStr "w2")]].

Definition dashboard_no_status : json Z := JObj [("data", JArr workers_no_status)].

(** The queue of the end-to-end scenario. *)
Definition queues_one : list (json Z) :=
  [JObj [("name", JStr "default"); ("messages", JInt 3)]].

Definition queues_default : json Z := JObj [("active_queues", JArr queues_one)].

(** A registry left by an earlier turn: three workers online, and seven
    messages in a queue that is gone since. *)
Definition stale_registry : gmap (gauge * list string) Z :=
  <[(WORKERS, ["flower"; "online"]) := 3]>
    (<[(TASKS_QUEUE, ["flower"; "old"]) := 7]> ∅).


(** Queues of which the second has no [messages]. *)
Definition queues_faulty : list (json Z) :=
  [JObj [("name", JStr "default"); ("messages", JInt 3)];
   JObj [("name", JStr "broken")];
   JObj [("name", JStr "late"); ("messages", JInt 9)]].

(** A queue whose [messages] is an integer no double holds: [float]
    raises [OverflowError] on it. *)
Definition queues_huge : list (json Z) :=
  [JObj [("name", JStr "default"); ("messages", JInt (10 ^ 400))]].

(** The same queue reported twice. *)
Definition queues_twice : list (json Z) :=
  [JObj [("name", JStr "default"); ("messages", JInt 3)];
   JObj [("name", JStr "default"); ("messages", JInt 8)]].

End IntClient.

(** ** The embedding *)

Section Exporter.

Context `{client}.

Abbreviation value := (json gval).

(** *** Operations of the interpreter on decoded values *)

Fixpoint dict_lookup (key : string) (fields : list (string * value)) : option value :=
  match fields with
  | [] => None
  | (k, v) :: rest => if decide (k = key) then Some v else dict_lookup key rest
  end.

(** [d.get(key, dflt)] *)
Definition py_get (d : value) (key : string) (dflt : value) : result value :=
  match d with
  | JObj fields => Ok (default dflt (dict_lookup key fields))
  | _ => Raise AttributeError
  end.

(** [d[key]] for a str [key] *)
Definition py_getitem (d : value) (key : string) : result value :=
  match d with
  | JObj fields =>
      match dict_lookup key fields with
      | Some v => Ok v
      | None => Raise (KeyError key)
      end
  | _ => Raise TypeError
  end.

Fixpoint chars (s : string) : list value :=
  match s with
  | EmptyString => []
  | String c rest => JStr (String c EmptyString) :: chars rest
  end.

(** The items a [for] loop over [v] visits. *)
Definition py_iter (v : value) : result (list value) :=
  match v with
  | JArr items => Ok items
  | JObj fields => Ok (map (λ kv, JStr kv.1) fields)
  | JStr s => Ok (chars s)
  | _ => Raise TypeError
  end.

(** The truth value of [v] in an [if]. *)
Definition py_truthy (v : value) : bool :=
  match v with
  | JNull => false
  | JBool b => b
  | JInt n => negb (n =? 0)
  | JFloat x => float_truthy x
  | JStr s => negb (String.eqb s "")
  | JArr items => match items with [] => false | _ => true end
  | JObj fields => match fields with [] => false | _ => true end
  end.

(** [float(v)] *)
Definition py_float (v : value) : result gval :=
  match v with
  | JInt n => match float_of_int n with Some x => Ok x | None => Raise OverflowError end
  | JBool b => match float_of_int (if b then 1 else 0) with
               | Some x => Ok x | None => Raise OverflowError end
  | JFloat x => Ok x
  | JStr s => match float_of_str s with Some x => Ok x | None => Raise ValueError end
  | JNull | JArr _ | JObj _ => Raise TypeError
  end.

(** *** Events and the registry *)

Inductive event : Type :=
  | ELabels (g : gauge) (labelvalues : list string)
  | ESet (g : gauge) (labelvalues : list string) (v : gval)
  | ELog (lg : logger) (lvl : level) (msg : string)
  | ESleep (seconds : Z)
  | EGet (url : string).

Abbreviation registry := (gmap series gval).

(** [Gauge.labels] creates the child at 0.0 when it is new; [set]
    overwrites its value. *)
Definition apply_event (r : registry) (ev : event) : registry :=
  match ev with
  | ELabels g lv =>
      match r !! (g, lv) with
      | Some _ => r
      | None => <[(g, lv) := fzero]> r
      end
  | ESet g lv v => <[(g, lv) := v]> r
  | ELog _ _ _ | ESleep _ | EGet _ => r
  end.

Definition replay (r : registry) (evs : list event) : registry :=
  fold_left apply_event evs r.

(** *** Computations *)

Definition M (A : Type) : Type := registry → list event * result A.

Definition ret {A} (a : A) : M A := λ _, ([], Ok a).

Definition bind {A B} (m : M A) (k : A → M B) : M B :=
  λ r,
    match m r with
    | (evs, Ok a) =>
        match k a (replay r evs) with
        | (evs', res) => (evs ++ evs', res)
        end
    | (evs, Raise e) => (evs, Raise e)
    end.

#[local] Instance M_ret : MRet M := @ret.
#[local] Instance M_bind : MBind M := λ A B k m, bind m k.

Definition emit (ev : event) : M unit := λ _, ([ev], Ok tt).

Definition lift {A} (res : result A) : M A := λ _, ([], res).

Definition events_of {A} (m : M A) (r : registry) : list event := (m r).1.

Definition outcome {A} (m : M A) (r : registry) : result A := (m r).2.

(** The registry a computation leaves. *)
Definition exec {A} (m : M A) (r : registry) : registry := replay r (events_of m r).

Fixpoint for_each {A} (items : list A) (body : A → M unit) : M unit :=
  match items with
  | [] => mret tt
  | x :: rest => body x;; for_each rest body
  end.

(** *** Calls into the libraries *)

(** [g.labels(...)] with the label values already in the order of
    [labelnames g]. *)
Definition labels (g : gauge) (labelvalues : list string) : M series :=
  emit (ELabels g labelvalues);; mret (g, labelvalues).

(** [child.set(v)] *)
Definition gauge_set (child : series) (v : value) : M unit :=
  x ← lift (py_float v); emit (ESet child.1 child.2 x).

(** The label values of the children of [g] in the registry. *)
Definition children (g : gauge) (r : registry) : list (list string) :=
  omap (λ kv, if decide (kv.1.1 = g) then Some kv.1.2 else None) (map_to_list r).

(** The label values of the samples of [g.collect()]: one sample for
    every child. *)
Definition collect (g : gauge) : M (list (list string)) :=
  λ r, ([], Ok (children g r)).

Definition log (lg : logger) (lvl : level) (msg : string) : M unit :=
  emit (ELog lg lvl msg).

Definition sleep (seconds : Z) : M unit := emit (ESleep seconds).


(** *** [MonitorThread] and its two subclasses *)

(** [self.endpoint] *)
Definition endpoint (p : poller) (flower_host : string) : string :=
  match p with
  | QueueMonitorThread => flower_host +:+ "/api/queues/length"
  | WorkerMonitorThread => flower_host +:+ "/dashboard?json=1"
  end.

(** The body of the loops of [setup_metrics]:
    the child of every sample of [g.collect()] is set to 0. *)
Definition reset_gauge (g : gauge) : M unit :=
  samples ← collect g;
  for_each samples (λ labelvalues,
    child ← labels g labelvalues;
    gauge_set child (JInt 0)).

Definition setup_metrics (p : poller) : M unit :=
  match p with
  | QueueMonitorThread =>
      log RootLogger INFO "Setting metrics up";;
      reset_gauge TASKS_QUEUE
  | WorkerMonitorThread =>
      log RootLogger INFO "Setting metrics up";;
      reset_gauge WORKERS;;
      reset_gauge TASKS_WORKER
  end.

(** The body of the loop of [QueueMonitorThread.convert_data_to_prometheus]. *)
Definition queue_body (flower_host : string) (q_info : value) : M unit :=
  name ← lift (py_getitem q_info "name");
  child ← labels TASKS_QUEUE [flower_host; py_str name];
  messages ← lift (py_getitem q_info "messages");
  gauge_set child messages.

(** One line of the seven that set a child of [TASKS_WORKER] labelled
    [common] and [status] to [w_info.get(field, 0)]. *)
Definition worker_counter (flower_host : string) (hostname w_info : value)
    (status field : string) : M unit :=
  child ← labels TASKS_WORKER [flower_host; py_str hostname; status];
  n ← lift (py_get w_info field (JInt 0));
  gauge_set child n.

(** The body of the loop of [WorkerMonitorThread.convert_data_to_prometheus],
    from the counts before the entry to the counts after it. *)
Definition worker_body (flower_host : string) (w_info : value)
    (online offline : Z) : M (Z * Z) :=
  hostname ← lift (py_getitem w_info "hostname");
  worker_counter flower_host hostname w_info "received" "task-received";;
  worker_counter flower_host hostname w_info "started" "task-started";;
  worker_counter flower_host hostname w_info "failed" "task-failed";;
  worker_counter flower_host hostname w_info "retried" "task-retried";;
  worker_counter flower_host hostname w_info "succeeded" "task-succeeded";;
  worker_counter flower_host hostname w_info "processed" "processed";;
  worker_counter flower_host hostname w_info "active" "active";;
  status ← lift (py_getitem w_info "status");
  if py_truthy status
  then mret (online + 1, offline)
  else mret (online, offline + 1).

Fixpoint worker_loop (flower_host : string) (items : list value)
    (online offline : Z) : M (Z * Z) :=
  match items with
  | [] => mret (online, offline)
  | w_info :: rest =>
      counts ← worker_body flower_host w_info online offline;
      worker_loop flower_host rest counts.1 counts.2
  end.

Definition convert_data_to_prometheus (p : poller) (flower_host : string)
    (data : value) : M unit :=
  match p with
  | QueueMonitorThread =>
      queues ← lift (py_get data "active_queues" (JArr []));
      items ← lift (py_iter queues);
      for_each items (queue_body flower_host)
  | WorkerMonitorThread =>
      workers ← lift (py_get data "data" (JArr []));
      items ← lift (py_iter workers);
      counts ← worker_loop flower_host items 0 0;
      child ← labels WORKERS [flower_host; "online"];
      gauge_set child (JInt counts.1);;
      child ← labels WORKERS [flower_host; "offline"];
      gauge_set child (JInt counts.2)
  end.

(** [data.json()] *)
Definition response_json (body : option value) : result value :=
  match body with
  | Some v => Ok v
  | None => Raise JSONDecodeError
  end.

(** One turn of the [while True] of [get_metrics]; the turn ends by
    [continue], by reaching the end of the body, or by an exception. *)
Definition cycle (p : poller) (flower_host : string) (reply : http_reply gval) : M unit :=
  log (MonitorLogger flower_host) DEBUG ("Getting workers data from " +:+ flower_host);;
  emit (EGet (endpoint p flower_host));;
  match reply with
  | ConnectionError e =>
      log (MonitorLogger flower_host) ERROR
          ("Error receiving data from " +:+ flower_host +:+ " - " +:+ e);;
      sleep 5
  | OtherRequestError => lift (Raise RequestException)
  | Response status_code body =>
      if decide (status_code ≠ 200) then
        log (MonitorLogger flower_host) ERROR
            ("Error receiving data from " +:+ flower_host +:+ ". " +:+
             "Host responded with HTTP " +:+ pretty status_code);;
        sleep 1
      else
        data ← lift (response_json body);
        convert_data_to_prometheus p flower_host data;;
        sleep 1
  end.

(** [get_metrics] against the replies the host gives, in order.  The loop
    has no exit: [Ok tt] is the loop still running when the replies
    considered are used up, [Raise e] is the thread ended by [e]. *)
Fixpoint get_metrics (p : poller) (flower_host : string)
    (replies : list (http_reply gval)) : M unit :=
  match replies with
  | [] => mret tt
  | reply :: rest =>
      cycle p flower_host reply;;
      get_metrics p flower_host rest
  end.

(** [__init__] *)
Definition init (p : poller) (flower_host : string) : M unit :=
  log (MonitorLogger flower_host) INFO "Setting up monitor thread";;
  log (MonitorLogger flower_host) DEBUG
      ("Running monitoring thread for " +:+ flower_host +:+ " host.");;
  setup_metrics p.

(** [run] *)
Definition run (p : poller) (flower_host : string)
    (replies : list (http_reply gval)) : M unit :=
  log (MonitorLogger flower_host) INFO ("Running monitor thread for " +:+ flower_host);;
  get_metrics p flower_host replies.

(** A monitor thread from its construction on: [__init__], then [run]
    once the thread is started. *)
Definition monitor_thread (p : poller) (flower_host : string)
    (replies : list (http_reply gval)) : M unit :=
  init p flower_host;;
  run p flower_host replies.


(** ** Vocabulary of the statements *)

(** The status label and the payload field of the seven lines of the
    worker loop that set a child of [TASKS_WORKER], in source order. *)
Definition counters : list (string * string) :=
  [("received", "task-received"); ("started", "task-started");
   ("failed", "task-failed"); ("retried", "task-retried");
   ("succeeded", "task-succeeded"); ("processed", "processed");
   ("active", "active")].

(** The series a gauge call is about. *)
Definition event_series (ev : event) : option series :=
  match ev with
  | ELabels g lv | ESet g lv _ => Some (g, lv)
  | ELog _ _ _ | ESleep _ | EGet _ => None
  end.

(** The [set] calls among the events, in order. *)
Definition sets_of (evs : list event) : list (series * gval) :=
  omap (λ ev, match ev with ESet g lv v => Some ((g, lv), v) | _ => None end) evs.

(** The calls to the root logger among the events. *)
Definition root_logs (evs : list event) : list event :=
  List.filter (λ ev, match ev with ELog RootLogger _ _ => true | _ => false end) evs.

(** The requests among the events. *)
Definition requests_of (evs : list event) : list event :=
  List.filter (λ ev, match ev with EGet _ => true | _ => false end) evs.

(** What one event does to the value of series [k]. *)
Definition cell_step (k : series) (c : option gval) (ev : event) : option gval :=
  match ev with
  | ELabels g lv => if decide ((g, lv) = k) then Some (default fzero c) else c
  | ESet g lv v => if decide ((g, lv) = k) then Some v else c
  | ELog _ _ _ | ESleep _ | EGet _ => c
  end.

(** The entries the loop of a publish step visits: the items of
    [data.get(key, [])], none when the payload cannot be read this way. *)
Definition entries (key : string) (data : value) : list value :=
  match py_get data key (JArr []) with
  | Ok v => match py_iter v with Ok items => items | Raise _ => [] end
  | Raise _ => []
  end.

(** [float(w_info.get(field, 0))] *)
Definition counter_value (w_info : value) (field : string) : result gval :=
  match py_get w_info field (JInt 0) with
  | Ok n => py_float n
  | Raise e => Raise e
  end.

(** A worker entry the loop body gets through: [hostname] and [status]
    are there and every counter there is converts to a float. *)
Definition worker_ok (w_info : value) : bool :=
  is_ok (py_getitem w_info "hostname")
  && forallb (λ c, is_ok (counter_value w_info c.2)) counters
  && is_ok (py_getitem w_info "status").

(** A queue entry the loop body gets through. *)
Definition queue_ok (q_info : value) : bool :=
  is_ok (py_getitem q_info "name")
  && match py_getitem q_info "messages" with
     | Ok m => is_ok (py_float m)
     | Raise _ => false
     end.

(** The truth value of the [status] of an entry that has one. *)
Definition online_now (w_info : value) : bool :=
  match py_getitem w_info "status" with
  | Ok status => py_truthy status
  | Raise _ => false
  end.

(** The gauges a monitor thread resets and writes. *)
Definition gauges_of (p : poller) : list gauge :=
  match p with
  | QueueMonitorThread => [TASKS_QUEUE]
  | WorkerMonitorThread => [WORKERS; TASKS_WORKER]
  end.

(** A 2xx status. *)
Definition http_success (status_code : Z) : Prop := 200 ≤ status_code < 300.

(** A reply on which the turn of the loop ends in [continue]. *)
Definition reply_retried (reply : http_reply gval) : bool :=
  match reply with
  | ConnectionError _ => true
  | OtherRequestError => false
  | Response status_code _ => bool_decide (status_code ≠ 200)
  end.

(** A computation that performs [evs] and ends in [res] whatever the
    registry it starts from. *)
Definition yields {A} (m : M A) (evs : list event) (res : result A) : Prop :=
  ∀ r, m r = (evs, res).

(** A computation that does not read the registry and performs only
    events that satisfy [P]. *)
Definition always {A} (P : event → Prop) (m : M A) : Prop :=
  ∃ evs res, yields m evs res ∧ Forall P evs.

(** The gauge calls of the loop body on a queue entry it gets through. *)
Definition queue_calls (flower_host : string) (q_info : value) : list event :=
  match py_getitem q_info "name", py_getitem q_info "messages" with
  | Ok name, Ok messages =>
      match py_float messages with
      | Ok x => [ELabels TASKS_QUEUE [flower_host; py_str name];
                 ESet TASKS_QUEUE [flower_host; py_str name] x]
      | Raise _ => []
      end
  | _, _ => []
  end.

(** The gauge calls of one of the seven lines, when its counter converts. *)
Definition counter_calls (flower_host : string) (hostname w_info : value)
    (c : string * string) : list event :=
  match counter_value w_info c.2 with
  | Ok x => [ELabels TASKS_WORKER [flower_host; py_str hostname; c.1];
             ESet TASKS_WORKER [flower_host; py_str hostname; c.1] x]
  | Raise _ => []
  end.

(** The gauge calls of the loop body on a worker entry it gets through. *)
Definition worker_calls (flower_host : string) (w_info : value) : list event :=
  match py_getitem w_info "hostname" with
  | Ok hostname => flat_map (counter_calls flower_host hostname w_info) counters
  | Raise _ => []
  end.

(** The entries counted online, and those counted offline. *)
Definition count_online (items : list value) : Z :=
  Z.of_nat (length (List.filter online_now items)).

Definition count_offline (items : list value) : Z :=
  Z.of_nat (length (List.filter (λ w_info, negb (online_now w_info)) items)).

(** The series a publish step can touch: those named after an entry of
    the payload and, for the worker thread, the two counts of its host. *)
Definition publish_series (p : poller) (flower_host : string) (data : value)
    (k : series) : Prop :=
  match p with
  | QueueMonitorThread =>
      ∃ q_info name,
        q_info ∈ entries "active_queues" data
        ∧ py_getitem q_info "name" = Ok name
        ∧ k = (TASKS_QUEUE, [flower_host; py_str name])
  | WorkerMonitorThread =>
      k = (WORKERS, [flower_host; "online"])
      ∨ k = (WORKERS, [flower_host; "offline"])
      ∨ ∃ w_info hostname c,
          w_info ∈ entries "data" data
          ∧ py_getitem w_info "hostname" = Ok hostname
          ∧ c ∈ counters
          ∧ k = (TASKS_WORKER, [flower_host; py_str hostname; c.1])
  end.

(** A gauge call on a series that satisfies [S]. *)
Definition call_on (S : series → Prop) (ev : event) : Prop :=
  ∃ k, event_series ev = Some k ∧ S k.

(** A computation that ends in an exception whatever the registry. *)
Definition fails {A} (m : M A) : Prop :=
  ∃ evs e, yields m evs (Raise e).

(** The calls of [reset_gauge] on one child. *)
Definition reset_calls (g : gauge) (labelvalues : list string) : list event :=
  [ELabels g labelvalues; ESet g labelvalues fzero].

(** The events of a turn of the loop that ends in [continue]. *)
Definition retry_events (p : poller) (flower_host : string)
    (reply : http_reply gval) : list event :=
  match reply with
  | ConnectionError e =>
      [ELog (MonitorLogger flower_host) DEBUG ("Getting workers data from " +:+ flower_host);
       EGet (endpoint p flower_host);
       ELog (MonitorLogger flower_host) ERROR
            ("Error receiving data from " +:+ flower_host +:+ " - " +:+ e);
       ESleep 5]
  | Response status_code _ =>
      [ELog (MonitorLogger flower_host) DEBUG ("Getting workers data from " +:+ flower_host);
       EGet (endpoint p flower_host);
       ELog (MonitorLogger flower_host) ERROR
            ("Error receiving data from " +:+ flower_host +:+ ". " +:+
             "Host responded with HTTP " +:+ pretty status_code);
       ESleep 1]
  | OtherRequestError => []
  end.

(** ** What is assumed of the coercions

    [float(0)] is the 0.0 of a new child, [float] is defined on the
    integers a double holds exactly, and [str] of a str is that str. *)
Hypothesis float_of_int_0 : float_of_int 0 = Some fzero.
Hypothesis float_of_int_exact : ∀ n, Z.abs n ≤ 2 ^ 53 → is_Some (float_of_int n).
Hypothesis py_str_JStr : ∀ s, py_str (JStr s) = s.

(** The [set] calls on the children of one gauge. *)
Definition sets_on (g : gauge) (evs : list event) : list (series * gval) :=
  List.filter (λ kv, bool_decide (kv.1.1 = g)) (sets_of evs).

(** The seconds slept, call by call. *)
Definition sleeps_of (evs : list event) : list Z :=
  omap (λ ev, match ev with ESleep seconds => Some seconds | _ => None end) evs.

(** An event that, when it is a gauge call, is on a series that
    satisfies [S]. *)
Definition touches (S : series → Prop) (ev : event) : Prop :=
  ∀ k, event_series ev = Some k → S k.

(** The series the turn of the loop on [reply] can touch: those of the
    publish step when the reply is a 200 with a JSON body, none otherwise. *)
Definition reply_series (p : poller) (flower_host : string)
    (reply : http_reply gval) (k : series) : Prop :=
  match reply with
  | Response status_code (Some data) =>
      status_code = 200 ∧ publish_series p flower_host data k
  | _ => False
  end.

(** The sleep that ends the turn on [reply] when the turn gets to its end. *)
Definition reply_sleep (reply : http_reply gval) : Z :=
  match reply with
  | ConnectionError _ => 5
  | _ => 1
  end.

(** An event of the middle of a turn: no request, no sleep, no call to
    the root logger, and no gauge call outside [S]. *)
Definition turn_event (S : series → Prop) (ev : event) : Prop :=
  match ev with
  | EGet _ | ESleep _ | ELog RootLogger _ _ => False
  | _ => touches S ev
  end.

(** The key of the payload a publish step reads its entries from. *)
Definition payload_key (p : poller) : string :=
  match p with
  | QueueMonitorThread => "active_queues"
  | WorkerMonitorThread => "data"
  end.

(** A computation that ends in an exception, whatever the registry,
    after events that satisfy [P]. *)
Definition fails_with {A} (P : event → Prop) (m : M A) : Prop :=
  ∃ evs e, yields m evs (Raise e) ∧ Forall P evs.

(** ** Computations: equations *)

Lemma bind_eq {A B} (m : M A) (k : A → M B) (r : registry) :
  (m ≫= k) r =
  match m r with
  | (evs, Ok a) => ((evs ++ (k a (replay r evs)).1), (k a (replay r evs)).2)
  | (evs, Raise e) => (evs, Raise e)
  end.
Proof.
  unfold mbind, M_bind, bind.
  destruct (m r) as [evs [a|e]]; [|done].
  by destruct (k a (replay r evs)).
Qed.

Lemma yields_ret {A} (a : A) : yields (mret a) [] (Ok a).
Proof. by intros r. Qed.

Lemma yields_emit ev : yields (emit ev) [ev] (Ok tt).
Proof. by intros r. Qed.

Lemma yields_lift {A} (res : result A) : yields (lift res) [] res.
Proof. by intros r. Qed.

Lemma yields_bind {A B} (m : M A) (k : A → M B) evs a evs' res :
  yields m evs (Ok a) → yields (k a) evs' res → yields (m ≫= k) (evs ++ evs') res.
Proof. intros Hm Hk r. by rewrite bind_eq, Hm, Hk. Qed.

Lemma yields_bind_raise {A B} (m : M A) (k : A → M B) evs e :
  yields m evs (Raise e) → yields (m ≫= k) evs (Raise e).
Proof. intros Hm r. by rewrite bind_eq, Hm. Qed.

Lemma yields_bind_eq {A B} (m : M A) (k : A → M B) evs a evs' res all :
  yields m evs (Ok a) → yields (k a) evs' res → all = evs ++ evs' →
  yields (m ≫= k) all res.
Proof. intros Hm Hk ->. by eapply yields_bind. Qed.

Lemma always_ret {A} P (a : A) : always P (mret a).
Proof. exists [], (Ok a). split; [apply yields_ret | constructor]. Qed.

Lemma always_lift {A} P (res : result A) : always P (lift res).
Proof. exists [], res. split; [apply yields_lift | constructor]. Qed.

Lemma always_emit (P : event → Prop) ev : P ev → always P (emit ev).
Proof. intros HP. exists [ev], (Ok tt). split; [apply yields_emit | by repeat constructor]. Qed.

Lemma always_bind {A B} P (m : M A) (k : A → M B) :
  always P m →
  (∀ a evs, yields m evs (Ok a) → always P (k a)) →
  always P (m ≫= k).
Proof.
  intros (evs & [a|e] & Hm & HP) Hk.
  - destruct (Hk a evs Hm) as (evs' & res & Hk' & HP').
    exists (evs ++ evs'), res. split; [by eapply yields_bind | by apply Forall_app].
  - exists evs, (Raise e). split; [by apply yields_bind_raise | done].
Qed.

Lemma always_mono {A} (P Q : event → Prop) (m : M A) :
  (∀ ev, P ev → Q ev) → always P m → always Q m.
Proof.
  intros HPQ (evs & res & Hm & HP). exists evs, res. split; [done|].
  eapply Forall_impl; eauto.
Qed.

Lemma always_events {A} P (m : M A) r : always P m → Forall P (events_of m r).
Proof. intros (evs & res & Hm & HP). unfold events_of. by rewrite Hm. Qed.

Lemma always_indep {A} P (m : M A) r r' : always P m → m r = m r'.
Proof. intros (evs & res & Hm & _). by rewrite !Hm. Qed.

Lemma yields_lift_inv {A} (res : result A) evs res' :
  yields (lift res) evs res' → evs = [] ∧ res' = res.
Proof. intros Hy. specialize (Hy ∅). unfold lift in Hy. by injection Hy. Qed.

Lemma always_for_each {A} P (items : list A) (body : A → M unit) :
  (∀ x, x ∈ items → always P (body x)) → always P (for_each items body).
Proof.
  induction items as [|x rest IH]; intros Hb; simpl.
  - apply always_ret.
  - apply always_bind.
    + apply Hb. left.
    + intros _ _ _. apply IH. intros y Hy. apply Hb. by right.
Qed.

Lemma always_labels (P : event → Prop) g lv : P (ELabels g lv) → always P (labels g lv).
Proof.
  intros HP. unfold labels. apply always_bind; [by apply always_emit|].
  intros. apply always_ret.
Qed.

Lemma always_gauge_set (P : event → Prop) child v :
  (∀ x, P (ESet child.1 child.2 x)) → always P (gauge_set child v).
Proof.
  intros HP. unfold gauge_set. apply always_bind; [apply always_lift|].
  intros x _ _. by apply always_emit.
Qed.

Lemma yields_labels_inv g lv evs (child : series) :
  yields (labels g lv) evs (Ok child) → child = (g, lv).
Proof.
  intros Hy. specialize (Hy ∅). unfold labels in Hy. rewrite bind_eq in Hy.
  simpl in Hy. by injection Hy.
Qed.

(** ** The registry, series by series *)

Lemma replay_app (r : registry) evs evs' :
  replay r (evs ++ evs') = replay (replay r evs) evs'.
Proof. apply fold_left_app. Qed.

Lemma apply_event_lookup (r : registry) ev k :
  apply_event r ev !! k = cell_step k (r !! k) ev.
Proof.
  destruct ev as [g lv|g lv v| | |]; simpl; try done.
  - destruct (decide ((g, lv) = k)) as [<-|Hne].
    + destruct (r !! (g, lv)) eqn:Hr; simpl; [done|].
      by rewrite lookup_insert_eq.
    + destruct (r !! (g, lv)); [done|]. by rewrite lookup_insert_ne.
  - destruct (decide ((g, lv) = k)) as [<-|Hne].
    + by rewrite lookup_insert_eq.
    + by rewrite lookup_insert_ne.
Qed.

Lemma replay_lookup (r : registry) evs k :
  replay r evs !! k = fold_left (cell_step k) evs (r !! k).
Proof.
  revert r. induction evs as [|ev evs IH]; intros r; simpl; [done|].
  unfold replay in *. simpl. by rewrite IH, apply_event_lookup.
Qed.

Lemma cell_untouched k evs c :
  Forall (λ ev, event_series ev ≠ Some k) evs → fold_left (cell_step k) evs c = c.
Proof.
  intros Hevs. revert c. induction Hevs as [|ev evs Hev _ IH]; intros c; simpl; [done|].
  rewrite IH. destruct ev as [g lv|g lv v| | |]; simpl in *; try done;
    by destruct (decide ((g, lv) = k)) as [<-|].
Qed.

(** The three shapes the effect of a list of events on one series can have. *)
Lemma cell_shape k evs :
  (∀ c, fold_left (cell_step k) evs c = c)
  ∨ (∀ c, fold_left (cell_step k) evs c = Some (default fzero c))
  ∨ (∃ v, ∀ c, fold_left (cell_step k) evs c = Some v).
Proof.
  induction evs as [|ev evs IH]; simpl; [by left|].
  destruct ev as [g lv|g lv v| | |]; simpl; try done.
  - destruct (decide ((g, lv) = k)); [|done].
    destruct IH as [Hid|[Hd|[v Hv]]].
    + right; left. intros c. by rewrite Hid.
    + right; left. intros c. by rewrite Hd.
    + right; right. exists v. intros c. by rewrite Hv.
  - destruct (decide ((g, lv) = k)); [|done].
    destruct IH as [Hid|[Hd|[v' Hv]]].
    + right; right. exists v. intros c. by rewrite Hid.
    + right; right. exists v. intros c. by rewrite Hd.
    + right; right. exists v'. intros c. by rewrite Hv.
Qed.

Lemma cell_idempotent k evs c :
  fold_left (cell_step k) evs (fold_left (cell_step k) evs c)
  = fold_left (cell_step k) evs c.
Proof.
  destruct (cell_shape k evs) as [Hid|[Hd|[v Hv]]].
  - by rewrite !Hid.
  - by rewrite !Hd.
  - by rewrite !Hv.
Qed.

(** When only [labels] and [set(v)] calls are made on series [k], with at
    least one [set(v)], the series reads [v] afterwards. *)
Lemma cell_set_all k v evs c :
  Forall (λ ev, event_series ev = Some k → ev = ELabels k.1 k.2 ∨ ev = ESet k.1 k.2 v) evs →
  (fold_left (cell_step k) evs (Some v) = Some v)
  ∧ (ESet k.1 k.2 v ∈ evs → fold_left (cell_step k) evs c = Some v).
Proof.
  intros Hevs. revert c. induction Hevs as [|ev evs Hev _ IH]; intros c; simpl.
  - split; [done|]. by intros ?%elem_of_nil.
  - assert (cell_step k (Some v) ev = Some v) as Hsome.
    { destruct ev as [g lv|g lv v'| | |]; simpl in *; try done;
        destruct (decide ((g, lv) = k)) as [<-|]; try done.
      destruct Hev as [?|Heq]; [done|done|]. by injection Heq as ->. }
    split; [rewrite Hsome; apply (IH c)|].
    intros [<-|Hin]%elem_of_cons.
    + simpl. destruct k as [g lv]; simpl. rewrite decide_True by done. apply (IH c).
    + by apply IH.
Qed.

Lemma exec_bind {A B} (m : M A) (k : A → M B) r a :
  outcome m r = Ok a → exec (m ≫= k) r = exec (k a) (exec m r).
Proof.
  unfold outcome, exec, events_of. intros Hm. rewrite bind_eq.
  destruct (m r) as [evs res]; simpl in *. subst res. simpl.
  by rewrite replay_app.
Qed.

Lemma events_bind {A B} (m : M A) (k : A → M B) r a :
  outcome m r = Ok a →
  events_of (m ≫= k) r = events_of m r ++ events_of (k a) (exec m r).
Proof.
  unfold outcome, exec, events_of. intros Hm. rewrite bind_eq.
  destruct (m r) as [evs res]; simpl in *. by subst res.
Qed.

Lemma outcome_bind {A B} (m : M A) (k : A → M B) r a :
  outcome m r = Ok a → outcome (m ≫= k) r = outcome (k a) (exec m r).
Proof.
  unfold outcome, exec, events_of. intros Hm. rewrite bind_eq.
  destruct (m r) as [evs res]; simpl in *. by subst res.
Qed.

(** ** The loop bodies on entries they get through *)

Ltac yields_go :=
  first
    [ apply yields_ret
    | apply yields_emit
    | apply yields_lift
    | eapply yields_bind_eq; [ yields_go | yields_go | reflexivity ] ].

Lemma yields_labels g lv : yields (labels g lv) [ELabels g lv] (Ok (g, lv)).
Proof. unfold labels. yields_go. Qed.

Lemma yields_gauge_set child v x :
  py_float v = Ok x → yields (gauge_set child v) [ESet child.1 child.2 x] (Ok tt).
Proof. intros Hx. unfold gauge_set. rewrite Hx. yields_go. Qed.

Lemma worker_counter_ok host hn w c x :
  counter_value w c.2 = Ok x →
  yields (worker_counter host hn w c.1 c.2)
    [ELabels TASKS_WORKER [host; py_str hn; c.1];
     ESet TASKS_WORKER [host; py_str hn; c.1] x] (Ok tt).
Proof.
  unfold counter_value, worker_counter. intros Hx.
  destruct (py_get w c.2 (JInt 0)) as [n|e] eqn:Hn; [|done].
  eapply yields_bind_eq; [apply yields_labels| |reflexivity].
  eapply yields_bind_eq; [apply yields_lift| |reflexivity].
  by apply (yields_gauge_set (TASKS_WORKER, _)).
Qed.

Lemma worker_counter_calls host hn w c :
  is_ok (counter_value w c.2) = true →
  yields (worker_counter host hn w c.1 c.2) (counter_calls host hn w c) (Ok tt).
Proof.
  unfold counter_calls. destruct (counter_value w c.2) as [x|e] eqn:Hx; [|done].
  intros _. by apply worker_counter_ok.
Qed.

Lemma worker_body_ok host w on off :
  worker_ok w = true →
  yields (worker_body host w on off) (worker_calls host w)
    (Ok (if online_now w then (on + 1, off) else (on, off + 1))).
Proof.
  unfold worker_ok, worker_calls, online_now, worker_body.
  intros [[Hhn Hc]%andb_true_iff Hst]%andb_true_iff.
  destruct (py_getitem w "hostname") as [hn|] eqn:Ehn; [|done].
  destruct (py_getitem w "status") as [st|] eqn:Est; [|done].
  simpl in Hc. repeat (apply andb_true_iff in Hc as [? Hc]).
  eapply yields_bind_eq; [apply yields_lift| |reflexivity].
  simpl flat_map.
  do 7 (eapply yields_bind_eq;
        [by apply (worker_counter_calls host hn w (_, _))| |reflexivity]).
  eapply yields_bind_eq; [apply yields_lift| |by rewrite app_nil_r].
  destruct (py_truthy st); apply yields_ret.
Qed.

Lemma queue_body_ok host q :
  queue_ok q = true → yields (queue_body host q) (queue_calls host q) (Ok tt).
Proof.
  unfold queue_ok, queue_calls, queue_body.
  intros [Hname Hm]%andb_true_iff.
  destruct (py_getitem q "name") as [name|] eqn:Ename; [|done].
  destruct (py_getitem q "messages") as [m|] eqn:Em; [|done].
  destruct (py_float m) as [x|] eqn:Ex; [|done].
  eapply yields_bind_eq; [apply yields_lift| |reflexivity].
  eapply yields_bind_eq; [apply yields_labels| |reflexivity].
  eapply yields_bind_eq; [apply yields_lift| |reflexivity].
  by apply (yields_gauge_set (TASKS_QUEUE, _)).
Qed.

Lemma for_each_yields {A} (items : list A) (body : A → M unit) (calls : A → list event) :
  (∀ x, x ∈ items → yields (body x) (calls x) (Ok tt)) →
  yields (for_each items body) (flat_map calls items) (Ok tt).
Proof.
  induction items as [|x rest IH]; intros Hb; simpl.
  - apply yields_ret.
  - eapply yields_bind; [apply Hb; left|].
    apply IH. intros y Hy. apply Hb. by right.
Qed.

Lemma count_online_cons w ws :
  count_online (w :: ws) = (if online_now w then 1 else 0) + count_online ws.
Proof. unfold count_online. simpl. destruct (online_now w); simpl; lia. Qed.

Lemma count_offline_cons w ws :
  count_offline (w :: ws) = (if online_now w then 0 else 1) + count_offline ws.
Proof. unfold count_offline. simpl. destruct (online_now w); simpl; lia. Qed.

Lemma count_online_offline ws :
  count_online ws + count_offline ws = Z.of_nat (length ws).
Proof.
  induction ws as [|w ws IH]; [done|].
  rewrite count_online_cons, count_offline_cons. simpl length.
  destruct (online_now w); lia.
Qed.

Lemma count_online_nonneg ws : 0 ≤ count_online ws.
Proof. unfold count_online. lia. Qed.

Lemma count_offline_nonneg ws : 0 ≤ count_offline ws.
Proof. unfold count_offline. lia. Qed.

Lemma worker_loop_ok host ws on off :
  Forall (λ w, worker_ok w = true) ws →
  yields (worker_loop host ws on off) (flat_map (worker_calls host) ws)
    (Ok (on + count_online ws, off + count_offline ws)).
Proof.
  intros Hws. revert on off.
  induction Hws as [|w ws Hw _ IH]; intros on off; simpl.
  - unfold count_online, count_offline. simpl. rewrite !Z.add_0_r. apply yields_ret.
  - eapply yields_bind; [by apply worker_body_ok|].
    rewrite count_online_cons, count_offline_cons.
    destruct (online_now w); simpl.
    + replace (on + (1 + count_online ws)) with (on + 1 + count_online ws) by lia.
      replace (off + (0 + count_offline ws)) with (off + count_offline ws) by lia.
      apply IH.
    + replace (on + (0 + count_online ws)) with (on + count_online ws) by lia.
      replace (off + (1 + count_offline ws)) with (off + 1 + count_offline ws) by lia.
      apply IH.
Qed.

(** ** The publish steps on any payload *)

Lemma worker_counter_always (S : series → Prop) host hn w st f :
  S (TASKS_WORKER, [host; py_str hn; st]) →
  always (call_on S) (worker_counter host hn w st f).
Proof.
  intros HS. unfold worker_counter. apply always_bind.
  - apply always_labels. by eexists.
  - intros child evs ->%yields_labels_inv.
    apply always_bind; [apply always_lift|]. intros n _ _.
    apply always_gauge_set. intros x. by eexists.
Qed.

Ltac find_elem := first [ by left | right; find_elem ].

Lemma worker_body_always (S : series → Prop) host w on off :
  (∀ hn c, py_getitem w "hostname" = Ok hn → c ∈ counters →
           S (TASKS_WORKER, [host; py_str hn; c.1])) →
  always (call_on S) (worker_body host w on off).
Proof.
  intros HS. unfold worker_body.
  apply always_bind; [apply always_lift|].
  intros hn evs [_ Hhn]%yields_lift_inv. symmetry in Hhn.
  assert (∀ st f, (st, f) ∈ counters → S (TASKS_WORKER, [host; py_str hn; st])) as HS'.
  { intros st f. by apply (HS hn (st, f)). }
  do 7 (apply always_bind;
        [apply worker_counter_always; eapply HS'; unfold counters; find_elem
        |intros _ _ _]).
  apply always_bind; [apply always_lift|]. intros st _ _.
  destruct (py_truthy st); apply always_ret.
Qed.

Lemma worker_loop_always (S : series → Prop) host ws on off :
  (∀ w hn c, w ∈ ws → py_getitem w "hostname" = Ok hn → c ∈ counters →
             S (TASKS_WORKER, [host; py_str hn; c.1])) →
  always (call_on S) (worker_loop host ws on off).
Proof.
  revert on off. induction ws as [|w ws IH]; intros on off HS; simpl.
  - apply always_ret.
  - apply always_bind.
    + apply worker_body_always. intros hn c. apply HS. left.
    + intros counts _ _. apply IH. intros w' hn c Hw'. apply HS. by right.
Qed.

Lemma queue_body_always (S : series → Prop) host q :
  (∀ name, py_getitem q "name" = Ok name → S (TASKS_QUEUE, [host; py_str name])) →
  always (call_on S) (queue_body host q).
Proof.
  intros HS. unfold queue_body.
  apply always_bind; [apply always_lift|].
  intros name evs [_ Hname]%yields_lift_inv. symmetry in Hname.
  apply always_bind.
  - apply always_labels. eexists. split; [done|]. by apply HS.
  - intros child evs' ->%yields_labels_inv.
    apply always_bind; [apply always_lift|]. intros m _ _.
    apply always_gauge_set. intros x. eexists. split; [done|]. by apply HS.
Qed.

Lemma entries_eq key data v items :
  py_get data key (JArr []) = Ok v → py_iter v = Ok items → entries key data = items.
Proof. unfold entries. by intros -> ->. Qed.

Lemma convert_always p host data :
  always (call_on (publish_series p host data)) (convert_data_to_prometheus p host data).
Proof.
  destruct p; unfold convert_data_to_prometheus.
  - apply always_bind; [apply always_lift|].
    intros v ? [_ Hv]%yields_lift_inv. symmetry in Hv.
    apply always_bind; [apply always_lift|].
    intros items ? [_ Hit]%yields_lift_inv. symmetry in Hit.
    apply always_for_each. intros q Hq. apply queue_body_always.
    intros name Hname. exists q, name. by rewrite (entries_eq _ _ _ _ Hv Hit).
  - apply always_bind; [apply always_lift|].
    intros v ? [_ Hv]%yields_lift_inv. symmetry in Hv.
    apply always_bind; [apply always_lift|].
    intros items ? [_ Hit]%yields_lift_inv. symmetry in Hit.
    apply always_bind.
    { apply worker_loop_always. intros w hn c Hw Hhn Hc.
      right; right. exists w, hn, c. by rewrite (entries_eq _ _ _ _ Hv Hit). }
    intros counts _ _.
    apply always_bind.
    { apply always_labels. eexists. split; [done|]. by left. }
    intros child ? ->%yields_labels_inv.
    apply always_bind.
    { apply always_gauge_set. intros x. eexists. split; [done|]. by left. }
    intros _ _ _.
    apply always_bind.
    { apply always_labels. eexists. split; [done|]. right; by left. }
    intros child ? ->%yields_labels_inv.
    apply always_gauge_set. intros x. eexists. split; [done|]. right; by left.
Qed.

(** ** The start-up reset *)

Lemma elem_of_children (g : gauge) (r : registry) (lv : list string) :
  lv ∈ children g r ↔ is_Some (r !! (g, lv)).
Proof.
  unfold children. rewrite list_elem_of_omap. split.
  - intros ([[g' lv'] v] & Hin & Heq). simpl in Heq.
    destruct (decide (g' = g)) as [->|]; [|done]. injection Heq as ->.
    apply elem_of_map_to_list in Hin. by exists v.
  - intros [v Hv]. exists ((g, lv), v). split; [by apply elem_of_map_to_list|].
    simpl. by rewrite decide_True.
Qed.

Lemma reset_child_yields g lv :
  yields (child ← labels g lv; gauge_set child (JInt 0)) (reset_calls g lv) (Ok tt).
Proof.
  eapply yields_bind_eq; [apply yields_labels| |reflexivity].
  apply (yields_gauge_set (g, lv)). simpl. by rewrite float_of_int_0.
Qed.

Lemma reset_gauge_run g r :
  reset_gauge g r = (flat_map (reset_calls g) (children g r), Ok tt).
Proof.
  unfold reset_gauge. rewrite bind_eq. simpl.
  rewrite (for_each_yields _ _ (reset_calls g)); [done|].
  intros lv _. apply reset_child_yields.
Qed.

Lemma reset_gauge_lookup (g : gauge) (r : registry) (k : series) :
  exec (reset_gauge g) r !! k
  = if decide (k.1 = g) then (λ _, fzero) <$> r !! k else r !! k.
Proof.
  unfold exec, events_of. rewrite reset_gauge_run, replay_lookup. simpl.
  destruct k as [g' lv]. simpl.
  destruct (decide (g' = g)) as [->|Hne].
  - destruct (r !! (g, lv)) as [v|] eqn:Hr; simpl.
    + apply (cell_set_all (g, lv) fzero).
      * apply Forall_forall. intros ev (lv' & _ & Hev)%list_elem_of_In%in_flat_map.
        intros Hk. destruct Hev as [<-|[<-|[]]]; simpl in Hk; injection Hk as ->; auto.
      * apply list_elem_of_In, in_flat_map. exists lv. split.
        -- apply list_elem_of_In, elem_of_children. by exists v.
        -- right. by left.
    + apply cell_untouched. apply Forall_forall.
      intros ev (lv' & Hlv'%list_elem_of_In%elem_of_children & Hev)%list_elem_of_In%in_flat_map.
      intros Hk. destruct Hlv' as [v Hv].
      destruct Hev as [<-|[<-|[]]]; simpl in Hk; injection Hk as ->; congruence.
  - apply cell_untouched. apply Forall_forall.
    intros ev (lv' & _ & Hev)%list_elem_of_In%in_flat_map.
    intros Hk. destruct Hev as [<-|[<-|[]]]; simpl in Hk; injection Hk as ->; congruence.
Qed.

Lemma reset_gauge_outcome g r : outcome (reset_gauge g) r = Ok tt.
Proof. unfold outcome. by rewrite reset_gauge_run. Qed.

Lemma reset_gauge_events g r ev :
  ev ∈ events_of (reset_gauge g) r → ∃ lv, ev = ELabels g lv ∨ ev = ESet g lv fzero.
Proof.
  unfold events_of. rewrite reset_gauge_run. simpl.
  intros (lv & _ & Hev)%list_elem_of_In%in_flat_map. exists lv.
  destruct Hev as [<-|[<-|[]]]; auto.
Qed.

Lemma setup_metrics_outcome p r : outcome (setup_metrics p) r = Ok tt.
Proof.
  destruct p; unfold setup_metrics.
  - rewrite (outcome_bind _ _ _ tt) by done. apply reset_gauge_outcome.
  - rewrite (outcome_bind _ _ _ tt) by done.
    rewrite (outcome_bind _ _ _ tt) by apply reset_gauge_outcome.
    apply reset_gauge_outcome.
Qed.

Lemma exec_log lg lvl msg r : exec (log lg lvl msg) r = r.
Proof. done. Qed.

Lemma setup_metrics_lookup (p : poller) (r : registry) (k : series) :
  exec (setup_metrics p) r !! k
  = if decide (k.1 ∈ gauges_of p) then (λ _, fzero) <$> r !! k else r !! k.
Proof.
  destruct p; unfold setup_metrics; simpl.
  - rewrite (exec_bind _ _ _ tt) by done. rewrite exec_log, reset_gauge_lookup.
    destruct (decide (k.1 = TASKS_QUEUE)) as [Heq|Hne].
    + rewrite decide_True; [done|]. apply list_elem_of_singleton, Heq.
    + rewrite decide_False; [done|]. by intros ?%list_elem_of_singleton.
  - rewrite (exec_bind _ _ _ tt) by done. rewrite exec_log.
    rewrite (exec_bind _ _ _ tt) by apply reset_gauge_outcome.
    rewrite !reset_gauge_lookup.
    destruct (decide (k.1 = TASKS_WORKER)) as [Hw|Hw];
      destruct (decide (k.1 = WORKERS)) as [Hk|Hk].
    + congruence.
    + rewrite decide_True; [done|]. apply elem_of_cons. right.
      apply list_elem_of_singleton, Hw.
    + rewrite decide_True; [done|]. apply elem_of_cons. by left.
    + rewrite decide_False; [done|].
      by intros [?|?%list_elem_of_singleton]%elem_of_cons.
Qed.

(** ** The poll loop *)

Lemma cycle_connection_error p host e :
  yields (cycle p host (ConnectionError e)) (retry_events p host (ConnectionError e)) (Ok tt).
Proof. unfold cycle, log, sleep. yields_go. Qed.

Lemma cycle_bad_status p host status_code body :
  status_code ≠ 200 →
  yields (cycle p host (Response status_code body))
         (retry_events p host (Response status_code body)) (Ok tt).
Proof.
  intros Hne. unfold cycle, log, sleep. rewrite decide_True by done. yields_go.
Qed.

Lemma cycle_retried p host reply :
  reply_retried reply = true →
  yields (cycle p host reply) (retry_events p host reply) (Ok tt).
Proof.
  destruct reply as [e| |status_code body]; simpl; [| done |].
  - intros _. apply cycle_connection_error.
  - intros Hne%bool_decide_eq_true. by apply cycle_bad_status.
Qed.

Lemma retry_events_no_call p host reply :
  Forall (λ ev, event_series ev = None) (retry_events p host reply).
Proof. destruct reply; simpl; repeat constructor. Qed.

Lemma get_metrics_cons p host reply rest evs :
  yields (cycle p host reply) evs (Ok tt) →
  ∀ r, get_metrics p host (reply :: rest) r
       = (evs ++ (get_metrics p host rest (replay r evs)).1,
          (get_metrics p host rest (replay r evs)).2).
Proof. intros Hc r. simpl. by rewrite bind_eq, Hc. Qed.

Lemma get_metrics_raise p host reply rest evs e :
  yields (cycle p host reply) evs (Raise e) →
  yields (get_metrics p host (reply :: rest)) evs (Raise e).
Proof. intros Hc. simpl. by apply yields_bind_raise. Qed.

Lemma get_metrics_retried p host replies :
  Forall (λ reply, reply_retried reply = true) replies →
  yields (get_metrics p host replies) (flat_map (retry_events p host) replies) (Ok tt).
Proof.
  induction 1 as [|reply rest Hr _ IH]; simpl.
  - apply yields_ret.
  - eapply yields_bind; [by apply cycle_retried | apply IH].
Qed.

Lemma cycle_always p host reply :
  always (λ ev, match ev with ELog RootLogger _ _ => False | _ => True end)
         (cycle p host reply).
Proof.
  unfold cycle, log, sleep.
  apply always_bind; [by apply always_emit|]. intros _ _ _.
  apply always_bind; [by apply always_emit|]. intros _ _ _.
  destruct reply as [e| |status_code body].
  - apply always_bind; [by apply always_emit|]. intros _ _ _. by apply always_emit.
  - apply always_lift.
  - destruct (decide (status_code ≠ 200)).
    + apply always_bind; [by apply always_emit|]. intros _ _ _. by apply always_emit.
    + apply always_bind; [apply always_lift|]. intros data _ _.
      apply always_bind; [|intros _ _ _; by apply always_emit].
      eapply always_mono; [|apply convert_always].
      intros ev (k & Hk & _). by destruct ev.
Qed.

Lemma get_metrics_always p host replies :
  always (λ ev, match ev with ELog RootLogger _ _ => False | _ => True end)
         (get_metrics p host replies).
Proof.
  induction replies as [|reply rest IH]; simpl.
  - apply always_ret.
  - apply always_bind; [apply cycle_always|]. by intros _ _ _.
Qed.

(** ** Computations that end in an exception *)

Lemma fails_bind_l {A B} (m : M A) (k : A → M B) : fails m → fails (m ≫= k).
Proof. intros (evs & e & Hm). exists evs, e. by apply yields_bind_raise. Qed.

Lemma fails_bind {A B} (P : event → Prop) (m : M A) (k : A → M B) :
  always P m → (∀ a evs, yields m evs (Ok a) → fails (k a)) → fails (m ≫= k).
Proof.
  intros (evs & [a|e] & Hm & _) Hk.
  - destruct (Hk a evs Hm) as (evs' & e & Hk'). exists (evs ++ evs'), e.
    by eapply yields_bind.
  - exists evs, e. by apply yields_bind_raise.
Qed.

Lemma fails_lift {A} (e : exn) : fails (lift (Raise e : result A)).
Proof. exists [], e. apply yields_lift. Qed.

Lemma worker_body_fails host w on off :
  is_ok (py_getitem w "hostname") = false ∨ is_ok (py_getitem w "status") = false →
  fails (worker_body host w on off).
Proof.
  intros Hmiss. unfold worker_body.
  destruct (py_getitem w "hostname") as [hn|e] eqn:Ehn; [|apply fails_bind_l, fails_lift].
  destruct Hmiss as [?|Hst]; [done|].
  eapply fails_bind; [apply (always_lift (λ _, True))|]. intros hn' _ _.
  do 7 (eapply fails_bind;
        [by apply (worker_counter_always (λ _, True))|intros _ _ _]).
  destruct (py_getitem w "status") as [st|e]; [done|].
  apply fails_bind_l, fails_lift.
Qed.

Lemma worker_loop_fails host ws on off :
  Exists (λ w, is_ok (py_getitem w "hostname") = false
               ∨ is_ok (py_getitem w "status") = false) ws →
  fails (worker_loop host ws on off).
Proof.
  intros Hex. revert on off. induction Hex as [w ws Hw|w ws _ IH]; intros on off; simpl.
  - by apply fails_bind_l, worker_body_fails.
  - eapply fails_bind; [by apply (worker_body_always (λ _, True))|].
    intros counts _ _. apply IH.
Qed.

(** ** The publish steps on payloads they get through *)

Lemma convert_queue_ok host data v qs :
  py_get data "active_queues" (JArr []) = Ok v →
  py_iter v = Ok qs →
  Forall (λ q, queue_ok q = true) qs →
  yields (convert_data_to_prometheus QueueMonitorThread host data)
         (flat_map (queue_calls host) qs) (Ok tt).
Proof.
  intros Hv Hqs Hok. unfold convert_data_to_prometheus. rewrite Hv.
  eapply yields_bind_eq; [apply yields_lift| |reflexivity]. rewrite Hqs.
  eapply yields_bind_eq; [apply yields_lift| |reflexivity].
  apply for_each_yields. intros q Hq. apply queue_body_ok.
  by apply (proj1 (Forall_forall _ _) Hok).
Qed.

Lemma convert_worker_ok host data v ws x_on x_off :
  py_get data "data" (JArr []) = Ok v →
  py_iter v = Ok ws →
  Forall (λ w, worker_ok w = true) ws →
  float_of_int (count_online ws) = Some x_on →
  float_of_int (count_offline ws) = Some x_off →
  yields (convert_data_to_prometheus WorkerMonitorThread host data)
         (flat_map (worker_calls host) ws
          ++ [ELabels WORKERS [host; "online"]; ESet WORKERS [host; "online"] x_on;
              ELabels WORKERS [host; "offline"]; ESet WORKERS [host; "offline"] x_off])
         (Ok tt).
Proof.
  intros Hv Hws Hok Hon Hoff. unfold convert_data_to_prometheus. rewrite Hv.
  eapply yields_bind_eq; [apply yields_lift| |reflexivity]. rewrite Hws.
  eapply yields_bind_eq; [apply yields_lift| |reflexivity].
  eapply yields_bind_eq; [by apply worker_loop_ok| |reflexivity].
  simpl. rewrite !Z.add_0_l.
  eapply yields_bind_eq; [apply yields_labels| |reflexivity].
  eapply yields_bind_eq;
    [apply (yields_gauge_set (WORKERS, _)); simpl; by rewrite Hon| |reflexivity].
  eapply yields_bind_eq; [apply yields_labels| |reflexivity].
  apply (yields_gauge_set (WORKERS, _)); simpl; by rewrite Hoff.
Qed.

Lemma counter_value_missing fields field :
  dict_lookup field fields = None → counter_value (JObj fields) field = Ok fzero.
Proof. unfold counter_value. simpl. intros ->. simpl. by rewrite float_of_int_0. Qed.

Lemma exec_yields {A} (m : M A) evs res r : yields m evs res → exec m r = replay r evs.
Proof. intros Hm. unfold exec, events_of. by rewrite Hm. Qed.

Lemma replay_no_call (r : registry) evs :
  Forall (λ ev, event_series ev = None) evs → replay r evs = r.
Proof.
  intros Hevs. apply map_eq. intros k. rewrite replay_lookup.
  apply cell_untouched. eapply Forall_impl; [done|]. simpl. by intros ev ->.
Qed.

(** ** The claims *)

(** C5. A turn of the poll loop whose GET raises a connection error makes
    no gauge call, logs at error level, sleeps 5 seconds and goes on to
    the next turn; a turn whose GET returns a status that is not a
    success status does the same with a sleep of 1 second. In both the
    registry is as before the turn and the loop keeps running: what
    follows is the loop on the rest of the replies. *)
Theorem failed_cycle_retries_without_writes
    (p : poller) (flower_host : string) (rest : list (http_reply gval)) (r : registry) :
  (∀ msg,
     cycle p flower_host (ConnectionError msg) r
     = ([ELog (MonitorLogger flower_host) DEBUG ("Getting workers data from " +:+ flower_host);
         EGet (endpoint p flower_host);
         ELog (MonitorLogger flower_host) ERROR
              ("Error receiving data from " +:+ flower_host +:+ " - " +:+ msg);
         ESleep 5], Ok tt)
     ∧ sets_of (events_of (cycle p flower_host (ConnectionError msg)) r) = []
     ∧ exec (cycle p flower_host (ConnectionError msg)) r = r
     ∧ events_of (get_metrics p flower_host (ConnectionError msg :: rest)) r
       = events_of (cycle p flower_host (ConnectionError msg)) r
         ++ events_of (get_metrics p flower_host rest) r
     ∧ outcome (get_metrics p flower_host (ConnectionError msg :: rest)) r
       = outcome (get_metrics p flower_host rest) r)
  ∧ (∀ status_code body,
     ¬ http_success status_code →
     cycle p flower_host (Response status_code body) r
     = ([ELog (MonitorLogger flower_host) DEBUG ("Getting workers data from " +:+ flower_host);
         EGet (endpoint p flower_host);
         ELog (MonitorLogger flower_host) ERROR
              ("Error receiving data from " +:+ flower_host +:+ ". " +:+
               "Host responded with HTTP " +:+ pretty status_code);
         ESleep 1], Ok tt)
     ∧ sets_of (events_of (cycle p flower_host (Response status_code body)) r) = []
     ∧ exec (cycle p flower_host (Response status_code body)) r = r
     ∧ events_of (get_metrics p flower_host (Response status_code body :: rest)) r
       = events_of (cycle p flower_host (Response status_code body)) r
         ++ events_of (get_metrics p flower_host rest) r
     ∧ outcome (get_metrics p flower_host (Response status_code body :: rest)) r
       = outcome (get_metrics p flower_host rest) r).
Proof.
  assert (∀ reply, reply_retried reply = true →
            cycle p flower_host reply r = (retry_events p flower_host reply, Ok tt)
            ∧ sets_of (events_of (cycle p flower_host reply) r) = []
            ∧ exec (cycle p flower_host reply) r = r
            ∧ events_of (get_metrics p flower_host (reply :: rest)) r
              = events_of (cycle p flower_host reply) r
                ++ events_of (get_metrics p flower_host rest) r
            ∧ outcome (get_metrics p flower_host (reply :: rest)) r
              = outcome (get_metrics p flower_host rest) r) as Hretry.
  { intros reply Hreply. pose proof (cycle_retried p flower_host reply Hreply) as Hc.
    assert (exec (cycle p flower_host reply) r = r) as Hexec.
    { rewrite (exec_yields _ _ _ _ Hc). apply replay_no_call, retry_events_no_call. }
    split; [apply Hc|]. split.
    { unfold events_of. rewrite Hc. by destruct reply. }
    split; [done|].
    unfold events_of, outcome. rewrite (get_metrics_cons _ _ _ _ _ Hc). simpl.
    rewrite Hc. simpl. rewrite <- (exec_yields _ _ _ _ Hc), Hexec. done. }
  split.
  - intros msg. by apply (Hretry (ConnectionError msg)).
  - intros status_code body Hbad. apply (Hretry (Response status_code body)).
    simpl. apply bool_decide_eq_true. unfold http_success in Hbad. lia.
Qed.

(** C9. On a dashboard payload whose [data] key is absent or holds an
    empty list the worker thread's publish step still makes two writes:
    it sets [celery_workers] of its host to 0 at status online and at
    status offline. The queue thread makes no call at all when
    [active_queues] is absent. *)
Theorem empty_dashboard_writes_two_zeros
    (flower_host : string) (fields : list (string * value)) (r : registry) :
  dict_lookup "data" fields = None ∨ dict_lookup "data" fields = Some (JArr []) →
  convert_data_to_prometheus WorkerMonitorThread flower_host (JObj fields) r
  = ([ELabels WORKERS [flower_host; "online"];
      ESet WORKERS [flower_host; "online"] fzero;
      ELabels WORKERS [flower_host; "offline"];
      ESet WORKERS [flower_host; "offline"] fzero], Ok tt)
  ∧ sets_of (events_of (convert_data_to_prometheus WorkerMonitorThread
                          flower_host (JObj fields)) r)
    = [((WORKERS, [flower_host; "online"]), fzero);
       ((WORKERS, [flower_host; "offline"]), fzero)]
  ∧ (dict_lookup "active_queues" fields = None →
     convert_data_to_prometheus QueueMonitorThread flower_host (JObj fields) r
     = ([], Ok tt)).
Proof.
  intros Hdata.
  assert (py_get (JObj fields) "data" (JArr []) = Ok (JArr [])) as Hget.
  { simpl. by destruct Hdata as [-> | ->]. }
  pose proof (convert_worker_ok flower_host (JObj fields) (JArr []) [] fzero fzero
                Hget eq_refl (List.Forall_nil _) float_of_int_0 float_of_int_0) as Hw.
  split; [apply Hw|]. split.
  - unfold events_of. by rewrite Hw.
  - intros Hq.
    apply (convert_queue_ok flower_host (JObj fields) (JArr []) []); try done.
    simpl. by rewrite Hq.
Qed.

(** C10. For a worker entry with a [status] field, whatever its value,
    the loop body does not fault on the test and counts the entry online
    when the value is truthy and offline when it is falsy: false, 0, the
    empty string and null are falsy; true, a non-zero integer and a
    non-empty string are truthy. *)
Theorem status_classified_by_truthiness
    (flower_host : string) (w_info status : value) (online offline : Z) (r : registry) :
  worker_ok w_info = true →
  py_getitem w_info "status" = Ok status →
  outcome (worker_body flower_host w_info online offline) r
  = Ok (if py_truthy status then (online + 1, offline) else (online, offline + 1))
  ∧ py_truthy (JBool false) = false
  ∧ py_truthy (JInt 0) = false
  ∧ py_truthy (JStr "") = false
  ∧ py_truthy JNull = false
  ∧ py_truthy (JBool true) = true
  ∧ (∀ n, n ≠ 0 → py_truthy (JInt n) = true)
  ∧ (∀ s, s ≠ "" → py_truthy (JStr s) = true).
Proof.
  intros Hok Hst. split.
  { unfold outcome. rewrite (worker_body_ok _ _ online offline Hok).
    unfold online_now. by rewrite Hst. }
  repeat split; try done.
  - intros n Hn. simpl. apply negb_true_iff, Z.eqb_neq, Hn.
  - intros s Hs. simpl. apply negb_true_iff, String.eqb_neq, Hs.
Qed.

(** ** The set calls of the entries *)

Lemma sets_of_app evs evs' : sets_of (evs ++ evs') = sets_of evs ++ sets_of evs'.
Proof. apply omap_app. Qed.

Lemma sets_on_app g evs evs' : sets_on g (evs ++ evs') = sets_on g evs ++ sets_on g evs'.
Proof. unfold sets_on. by rewrite sets_of_app, List.filter_app. Qed.

Lemma worker_calls_gauge host w :
  Forall (λ kv, kv.1.1 = TASKS_WORKER) (sets_of (worker_calls host w)).
Proof.
  unfold worker_calls. destruct (py_getitem w "hostname") as [hn|]; [|constructor].
  generalize counters. intros cs. induction cs as [|c cs IH]; simpl; [constructor|].
  rewrite sets_of_app. apply Forall_app. split; [|done].
  unfold counter_calls. destruct (counter_value w c.2); simpl; repeat constructor.
Qed.

Lemma sets_on_other g g' evs :
  g ≠ g' → Forall (λ kv, kv.1.1 = g') (sets_of evs) → sets_on g evs = [].
Proof.
  intros Hne. unfold sets_on. induction 1 as [|kv kvs Hkv _ IH]; simpl; [done|].
  rewrite bool_decide_eq_false_2; [done|]. congruence.
Qed.


Lemma flat_map_sets_gauge {A} g (calls : A → list event) items :
  (∀ x, Forall (λ kv, kv.1.1 = g) (sets_of (calls x))) →
  Forall (λ kv, kv.1.1 = g) (sets_of (flat_map calls items)).
Proof.
  intros Hc. induction items as [|x items IH]; simpl; [constructor|].
  rewrite sets_of_app. apply Forall_app. by split.
Qed.

Lemma queue_ok_sets host q :
  queue_ok q = true →
  ∃ name messages x,
    py_getitem q "name" = Ok name
    ∧ py_getitem q "messages" = Ok messages
    ∧ py_float messages = Ok x
    ∧ sets_of (queue_calls host q) = [((TASKS_QUEUE, [host; py_str name]), x)].
Proof.
  unfold queue_ok, queue_calls. intros [Hname Hm]%andb_true_iff.
  destruct (py_getitem q "name") as [name|]; [|done].
  destruct (py_getitem q "messages") as [messages|]; [|done].
  destruct (py_float messages) as [x|] eqn:Hx; [|done].
  exists name, messages, x. by rewrite Hx.
Qed.

Lemma py_float_int n x : py_float (JInt n) = Ok x → float_of_int n = Some x.
Proof. simpl. destruct (float_of_int n); [by intros [= ->]|done]. Qed.

(** C2 (amended). On a queue-length payload whose [active_queues] is a
    list of entries the loop body gets through (each has a [name], and a
    [messages] that [float] accepts), the publish step completes and its
    [set] calls are, entry by entry and in order, one write to
    [celery_tasks_by_queue] at flower = host, queue = [str(name)] (the
    name itself when it is a str), of the value [float(messages)]. When
    the key is absent the step makes no call at all and the registry is
    as before. *)
Theorem queue_publish_one_set_per_entry
    (flower_host : string) (fields : list (string * value)) (r : registry) :
  (∀ qs,
     dict_lookup "active_queues" fields = Some (JArr qs) →
     Forall (λ q_info, queue_ok q_info = true) qs →
     outcome (convert_data_to_prometheus QueueMonitorThread flower_host (JObj fields)) r
     = Ok tt
     ∧ Forall2 (λ q_info kv,
                  ∃ name messages,
                    py_getitem q_info "name" = Ok name
                    ∧ py_getitem q_info "messages" = Ok messages
                    ∧ kv.1 = (TASKS_QUEUE, [flower_host; py_str name])
                    ∧ py_float messages = Ok kv.2
                    ∧ (∀ s, name = JStr s → kv.1 = (TASKS_QUEUE, [flower_host; s]))
                    ∧ (∀ n, messages = JInt n → float_of_int n = Some kv.2))
               qs
               (sets_of (events_of (convert_data_to_prometheus QueueMonitorThread
                                      flower_host (JObj fields)) r)))
  ∧ (dict_lookup "active_queues" fields = None →
     events_of (convert_data_to_prometheus QueueMonitorThread flower_host (JObj fields)) r
     = []
     ∧ exec (convert_data_to_prometheus QueueMonitorThread flower_host (JObj fields)) r
       = r).
Proof.
  split.
  - intros qs Hqs Hok.
    assert (yields (convert_data_to_prometheus QueueMonitorThread flower_host (JObj fields))
                   (flat_map (queue_calls flower_host) qs) (Ok tt)) as Hrun.
    { apply (convert_queue_ok _ _ (JArr qs)); [simpl; by rewrite Hqs|done|done]. }
    unfold outcome, events_of. rewrite Hrun. simpl. split; [done|].
    clear Hqs Hrun. induction Hok as [|q qs Hq _ IH]; simpl.
    + constructor.
    + rewrite sets_of_app.
      destruct (queue_ok_sets flower_host q Hq) as (name & messages & x & Hn & Hm & Hx & ->).
      simpl. constructor; [|done]. exists name, messages. simpl.
      split; [done|]. split; [done|]. split; [done|]. split; [done|]. split.
      * intros s ->. by rewrite py_str_JStr.
      * intros n ->. by apply py_float_int.
  - intros Habsent.
    assert (yields (convert_data_to_prometheus QueueMonitorThread flower_host (JObj fields))
                   [] (Ok tt)) as Hrun.
    { apply (convert_queue_ok _ _ (JArr []) []); try done. simpl. by rewrite Habsent. }
    unfold exec, events_of. by rewrite Hrun.
Qed.

(** C3. On a dashboard payload whose [data] is a list of entries the loop
    body gets through, the publish step completes and its writes to
    [celery_workers] are two: the number of entries whose [status] is
    truthy at status online, then the number of entries whose [status] is
    falsy at status offline; the two numbers add up to the number of
    entries. *)
Theorem worker_counts_sum_to_entries
    (flower_host : string) (fields : list (string * value)) (ws : list value)
    (r : registry) :
  dict_lookup "data" fields = Some (JArr ws) →
  Forall (λ w_info, worker_ok w_info = true) ws →
  Z.of_nat (length ws) ≤ 2 ^ 53 →
  ∃ x_online x_offline,
    outcome (convert_data_to_prometheus WorkerMonitorThread flower_host (JObj fields)) r
    = Ok tt
    ∧ sets_on WORKERS
        (events_of (convert_data_to_prometheus WorkerMonitorThread
                      flower_host (JObj fields)) r)
      = [((WORKERS, [flower_host; "online"]), x_online);
         ((WORKERS, [flower_host; "offline"]), x_offline)]
    ∧ float_of_int (count_online ws) = Some x_online
    ∧ float_of_int (count_offline ws) = Some x_offline
    ∧ count_online ws = Z.of_nat (length (List.filter online_now ws))
    ∧ count_offline ws
      = Z.of_nat (length (List.filter (λ w_info, negb (online_now w_info)) ws))
    ∧ count_online ws + count_offline ws = Z.of_nat (length ws).
Proof.
  intros Hdata Hok Hlen.
  pose proof (count_online_offline ws) as Hsum.
  pose proof (count_online_nonneg ws) as Hon0.
  pose proof (count_offline_nonneg ws) as Hoff0.
  destruct (float_of_int_exact (count_online ws)) as [x_on Hon]; [lia|].
  destruct (float_of_int_exact (count_offline ws)) as [x_off Hoff]; [lia|].
  exists x_on, x_off.
  assert (py_get (JObj fields) "data" (JArr []) = Ok (JArr ws)) as Hget.
  { simpl. by rewrite Hdata. }
  pose proof (convert_worker_ok flower_host _ _ ws x_on x_off Hget eq_refl Hok Hon Hoff)
    as Hrun.
  unfold outcome, events_of. rewrite Hrun. simpl.
  split; [done|]. split; [|done].
  rewrite sets_on_app. rewrite (sets_on_other WORKERS TASKS_WORKER); [done|done|].
  apply flat_map_sets_gauge. intros w. apply worker_calls_gauge.
Qed.

Lemma lift_bind {A B} (a : A) (k : A → M B) r : (lift (Ok a) ≫= k) r = k a r.
Proof. rewrite bind_eq. unfold lift. simpl. by destruct (k a r). Qed.

Lemma call_on_sets (S : series → Prop) evs :
  Forall (call_on S) evs → Forall (λ kv, S kv.1) (sets_of evs).
Proof.
  induction 1 as [|ev evs (k & Hk & HS) _ IH]; simpl; [constructor|].
  destruct ev; simpl in *; try done.
  unfold sets_of in *. simpl. constructor; [|done]. simpl. by injection Hk as <-.
Qed.





Lemma root_logs_none evs :
  Forall (λ ev, match ev with ELog RootLogger _ _ => False | _ => True end) evs →
  root_logs evs = [].
Proof.
  induction 1 as [|ev evs Hev _ IH]; simpl; [done|].
  by destruct ev as [| |[] ? ?| |].
Qed.

Lemma requests_of_calls evs :
  Forall (λ ev, is_Some (event_series ev)) evs → requests_of evs = [].
Proof.
  induction 1 as [|ev evs [k Hk] _ IH]; simpl; [done|].
  by destruct ev.
Qed.

Lemma setup_metrics_events p r :
  ∃ calls,
    events_of (setup_metrics p) r = ELog RootLogger INFO "Setting metrics up" :: calls
    ∧ Forall (λ ev, is_Some (event_series ev)) calls.
Proof.
  assert (∀ g r', Forall (λ ev, is_Some (event_series ev)) (events_of (reset_gauge g) r'))
    as Hreset.
  { intros g r'. apply Forall_forall. intros ev [lv [-> | ->]]%reset_gauge_events; by eexists. }
  destruct p; unfold setup_metrics.
  - rewrite (events_bind _ _ _ tt) by done. simpl. eexists. split; [done|]. apply Hreset.
  - rewrite (events_bind _ _ _ tt) by done. simpl.
    rewrite (events_bind _ _ _ tt) by apply reset_gauge_outcome.
    eexists. split; [done|]. apply Forall_app. split; apply Hreset.
Qed.

Lemma init_outcome p host r : outcome (init p host) r = Ok tt.
Proof.
  unfold init. rewrite (outcome_bind _ _ _ tt) by done.
  rewrite (outcome_bind _ _ _ tt) by done. apply setup_metrics_outcome.
Qed.

Lemma init_events p host r :
  ∃ calls,
    events_of (init p host) r
    = [ELog (MonitorLogger host) INFO "Setting up monitor thread";
       ELog (MonitorLogger host) DEBUG
            ("Running monitoring thread for " +:+ host +:+ " host.");
       ELog RootLogger INFO "Setting metrics up"] ++ calls
    ∧ Forall (λ ev, is_Some (event_series ev)) calls.
Proof.
  destruct (setup_metrics_events p r) as (calls & Hevs & Hcalls).
  exists calls. split; [|done].
  unfold init. rewrite (events_bind _ _ _ tt) by done.
  rewrite (events_bind _ _ _ tt) by done. rewrite !exec_log, Hevs. done.
Qed.

Lemma run_always p host replies :
  always (λ ev, match ev with ELog RootLogger _ _ => False | _ => True end)
         (run p host replies).
Proof.
  unfold run, log. apply always_bind; [by apply always_emit|].
  intros _ _ _. apply get_metrics_always.
Qed.

(** C4. [setup_metrics] runs in [__init__], once, before the poll loop
    makes its first request, and it completes; after it every series of
    the thread's gauges that was in the registry reads 0 (the queue
    thread resets [celery_tasks_by_queue], the worker thread
    [celery_workers] and [celery_tasks_by_worker]), and they still read 0
    as long as no fetch has succeeded. *)
Theorem setup_resets_known_series_once
    (p : poller) (flower_host : string) (replies : list (http_reply gval))
    (r : registry) :
  outcome (init p flower_host) r = Ok tt
  ∧ events_of (monitor_thread p flower_host replies) r
    = events_of (init p flower_host) r
      ++ events_of (run p flower_host replies) (exec (init p flower_host) r)
  ∧ root_logs (events_of (monitor_thread p flower_host replies) r)
    = [ELog RootLogger INFO "Setting metrics up"]
  ∧ root_logs (events_of (init p flower_host) r)
    = [ELog RootLogger INFO "Setting metrics up"]
  ∧ requests_of (events_of (init p flower_host) r) = []
  ∧ gauges_of QueueMonitorThread = [TASKS_QUEUE]
  ∧ gauges_of WorkerMonitorThread = [WORKERS; TASKS_WORKER]
  ∧ (∀ k : series,
       k.1 ∈ gauges_of p → is_Some (r !! k) →
       exec (init p flower_host) r !! k = Some fzero
       ∧ (Forall (λ reply, reply_retried reply = true) replies →
          exec (monitor_thread p flower_host replies) r !! k = Some fzero)).
Proof.
  destruct (init_events p flower_host r) as (calls & Hevs & Hcalls).
  pose proof (init_outcome p flower_host r) as Hinit.
  assert (events_of (monitor_thread p flower_host replies) r
          = events_of (init p flower_host) r
            ++ events_of (run p flower_host replies) (exec (init p flower_host) r))
    as Hsplit.
  { unfold monitor_thread. by rewrite (events_bind _ _ _ tt). }
  assert (root_logs (events_of (init p flower_host) r)
          = [ELog RootLogger INFO "Setting metrics up"]) as Hroot.
  { rewrite Hevs. simpl. f_equal. apply root_logs_none.
    eapply Forall_impl; [apply Hcalls|]. intros ev [k Hk]. by destruct ev. }
  split; [done|]. split; [done|]. split.
  { rewrite Hsplit. unfold root_logs in *. rewrite List.filter_app, Hroot.
    rewrite (root_logs_none (events_of (run p flower_host replies) _)); [done|].
    apply (always_events _ _ _ (run_always p flower_host replies)). }
  split; [done|]. split.
  { rewrite Hevs. simpl. by apply requests_of_calls. }
  split; [done|]. split; [done|].
  intros k Hk [v Hv].
  assert (exec (init p flower_host) r !! k = Some fzero) as Hzero.
  { unfold init. rewrite (exec_bind _ _ _ tt) by done.
    rewrite (exec_bind _ _ _ tt) by done. rewrite !exec_log, setup_metrics_lookup.
    rewrite decide_True by done. by rewrite Hv. }
  split; [done|]. intros Hretried.
  unfold monitor_thread. rewrite (exec_bind _ _ _ tt) by done.
  unfold run. rewrite (exec_bind _ _ _ tt) by done. rewrite exec_log.
  rewrite (exec_yields _ _ _ _ (get_metrics_retried p flower_host replies Hretried)).
  rewrite replay_no_call; [done|].
  clear. induction replies as [|reply rest IH]; simpl; [constructor|].
  apply Forall_app. split; [apply retry_events_no_call|done].
Qed.

Lemma worker_body_no_status host w on off hn e :
  py_getitem w "hostname" = Ok hn →
  forallb (λ c, is_ok (counter_value w c.2)) counters = true →
  py_getitem w "status" = Raise e →
  yields (worker_body host w on off) (worker_calls host w) (Raise e).
Proof.
  intros Hhn Hc Hst. unfold worker_calls, worker_body. rewrite Hhn, Hst.
  simpl in Hc. repeat (apply andb_true_iff in Hc as [? Hc]).
  eapply yields_bind_eq; [apply yields_lift| |reflexivity].
  simpl flat_map.
  do 7 (eapply yields_bind_eq;
        [by apply (worker_counter_calls host hn w (_, _))| |reflexivity]).
  apply yields_bind_raise, yields_lift.
Qed.

Lemma convert_worker_fails host fields ws :
  dict_lookup "data" fields = Some (JArr ws) →
  Exists (λ w, is_ok (py_getitem w "hostname") = false
               ∨ is_ok (py_getitem w "status") = false) ws →
  fails (convert_data_to_prometheus WorkerMonitorThread host (JObj fields)).
Proof.
  intros Hdata Hex. unfold convert_data_to_prometheus. simpl py_get. rewrite Hdata. simpl.
  apply (fails_bind (λ _, True)); [apply always_lift|].
  intros v ? [_ Hv]%yields_lift_inv. injection Hv as ->.
  apply (fails_bind (λ _, True)); [apply always_lift|].
  intros items ? [_ Hitems]%yields_lift_inv. simpl in Hitems. injection Hitems as ->.
  by apply fails_bind_l, worker_loop_fails.
Qed.

Lemma cycle_convert_raise p host data evs e :
  yields (convert_data_to_prometheus p host data) evs (Raise e) →
  yields (cycle p host (Response 200 (Some data)))
         ([ELog (MonitorLogger host) DEBUG ("Getting workers data from " +:+ host);
           EGet (endpoint p host)] ++ evs)
         (Raise e).
Proof.
  intros Hc. unfold cycle, log. rewrite decide_False by (intros Hne; by apply Hne).
  eapply (yields_bind_eq _ _ [_]); [apply yields_emit| |reflexivity].
  eapply (yields_bind_eq _ _ [_]); [apply yields_emit| |reflexivity].
  eapply (yields_bind_eq _ _ []); [apply yields_lift| |reflexivity].
  by apply yields_bind_raise.
Qed.

(** C6. A dashboard payload with a worker entry that has no [status]
    field, or no [hostname] field, makes the worker thread's publish step
    raise; nothing in the poll loop catches it: the turn, the loop and
    [run] end in the same exception, and the loop performs nothing after
    the events of that turn. The exception is [KeyError] on [hostname]
    as soon as the entry is reached, and [KeyError] on [status] once the
    seven counters of the entry are set. An entry that has both fields
    and none of the counters raises nothing: the counters are read with
    a default of 0. *)
Theorem missing_required_field_ends_thread
    (flower_host : string) (fields : list (string * value)) (ws : list value)
    (entry : list (string * value)) (rest : list (http_reply gval)) (r : registry) :
  dict_lookup "data" fields = Some (JArr ws) →
  JObj entry ∈ ws →
  dict_lookup "status" entry = None ∨ dict_lookup "hostname" entry = None →
  (∃ e,
     outcome (convert_data_to_prometheus WorkerMonitorThread flower_host (JObj fields)) r
     = Raise e
     ∧ outcome (cycle WorkerMonitorThread flower_host
                  (Response 200 (Some (JObj fields)))) r = Raise e
     ∧ outcome (get_metrics WorkerMonitorThread flower_host
                  (Response 200 (Some (JObj fields)) :: rest)) r = Raise e
     ∧ events_of (get_metrics WorkerMonitorThread flower_host
                    (Response 200 (Some (JObj fields)) :: rest)) r
       = events_of (cycle WorkerMonitorThread flower_host
                      (Response 200 (Some (JObj fields)))) r
     ∧ outcome (run WorkerMonitorThread flower_host
                  (Response 200 (Some (JObj fields)) :: rest)) r = Raise e)
  ∧ (∀ online offline,
       dict_lookup "hostname" entry = None →
       worker_body flower_host (JObj entry) online offline r
       = ([], Raise (KeyError "hostname")))
  ∧ (∀ online offline,
       is_Some (dict_lookup "hostname" entry) →
       forallb (λ c, is_ok (counter_value (JObj entry) c.2)) counters = true →
       dict_lookup "status" entry = None →
       outcome (worker_body flower_host (JObj entry) online offline) r
       = Raise (KeyError "status"))
  ∧ (∀ bare online offline,
       is_Some (dict_lookup "hostname" bare) →
       is_Some (dict_lookup "status" bare) →
       (∀ c, c ∈ counters → dict_lookup c.2 bare = None) →
       is_ok (outcome (worker_body flower_host (JObj bare) online offline) r) = true).
Proof.
  intros Hdata Hin Hmiss. split; [|split; [|split]].
  - assert (fails (convert_data_to_prometheus WorkerMonitorThread flower_host (JObj fields)))
      as (evs & e & Hconv).
    { apply (convert_worker_fails _ _ ws Hdata). apply Exists_exists.
      exists (JObj entry). split; [done|]. simpl.
      destruct Hmiss as [-> | ->]; auto. }
    pose proof (cycle_convert_raise _ _ _ _ _ Hconv) as Hcycle.
    pose proof (get_metrics_raise _ _ _ rest _ _ Hcycle) as Hloop.
    assert (yields (run WorkerMonitorThread flower_host
                      (Response 200 (Some (JObj fields)) :: rest))
                   ([ELog (MonitorLogger flower_host) INFO
                          ("Running monitor thread for " +:+ flower_host)]
                    ++ ([ELog (MonitorLogger flower_host) DEBUG
                              ("Getting workers data from " +:+ flower_host);
                         EGet (endpoint WorkerMonitorThread flower_host)] ++ evs))
                   (Raise e)) as Hrun.
    { unfold run, log. eapply yields_bind; [apply yields_emit|apply Hloop]. }
    exists e. unfold outcome, events_of. by rewrite Hconv, Hcycle, Hloop, Hrun.
  - intros online offline Hhn. unfold worker_body. rewrite bind_eq. simpl. by rewrite Hhn.
  - intros online offline [hn Hhn] Hc Hst. unfold outcome.
    rewrite (worker_body_no_status _ _ _ _ hn (KeyError "status")); simpl; try done.
    + by rewrite Hhn.
    + by rewrite Hst.
  - intros bare online offline [hn Hhn] [st Hst] Hnone. unfold outcome.
    rewrite worker_body_ok; [done|]. unfold worker_ok.
    apply andb_true_iff. split; [apply andb_true_iff; split|].
    + simpl. by rewrite Hhn.
    + apply forallb_forall. intros c Hc%list_elem_of_In.
      by rewrite counter_value_missing by auto.
    + simpl. by rewrite Hst.
Qed.

(** ** Frame, idempotence, commutation *)

Lemma always_frame {A} (S : series → Prop) (m : M A) (r : registry) (k : series) :
  always (call_on S) m → ¬ S k → exec m r !! k = r !! k.
Proof.
  intros Hm HS. unfold exec. rewrite replay_lookup. apply cell_untouched.
  eapply Forall_impl; [apply (always_events _ _ r Hm)|].
  intros ev (k' & Hk' & HS') Hk. rewrite Hk in Hk'. injection Hk' as <-. by apply HS.
Qed.

Lemma publish_series_host p host data (k : series) :
  publish_series p host data k → ∃ rest, k.2 = host :: rest.
Proof.
  destruct p; simpl.
  - intros (q & name & _ & _ & ->). by eexists.
  - intros [-> | [-> | (w & hn & c & _ & _ & _ & ->)]]; by eexists.
Qed.

Lemma exec_idempotent {A} (P : event → Prop) (m : M A) (r : registry) :
  always P m → exec m (exec m r) = exec m r.
Proof.
  intros Hm. apply map_eq. intros k. unfold exec, events_of.
  rewrite (always_indep _ _ (replay r (m r).1) r Hm).
  rewrite !replay_lookup. apply cell_idempotent.
Qed.

Lemma exec_commute {A B} (S1 S2 : series → Prop) (m1 : M A) (m2 : M B) (r : registry) :
  always (call_on S1) m1 → always (call_on S2) m2 →
  (∀ k, S1 k → S2 k → False) →
  exec m2 (exec m1 r) = exec m1 (exec m2 r).
Proof.
  intros H1 H2 Hdisj. apply map_eq. intros k. unfold exec, events_of.
  rewrite (always_indep _ _ (replay r (m1 r).1) r H2).
  rewrite (always_indep _ _ (replay r (m2 r).1) r H1).
  rewrite !replay_lookup.
  assert (∀ {C} (S : series → Prop) (m : M C) c,
            always (call_on S) m → ¬ S k → fold_left (cell_step k) (m r).1 c = c)
    as Hskip.
  { intros C S m c Hm HS. apply cell_untouched.
    eapply Forall_impl; [apply (always_events _ _ r Hm)|].
    intros ev (k' & Hk' & HS') Hk. rewrite Hk in Hk'. injection Hk' as <-. by apply HS. }
  destruct (cell_shape k (m1 r).1) as [Hid|Hwritten].
  - by rewrite !Hid.
  - assert (¬ S2 k) as HS2.
    { intros HS2. assert (¬ S1 k) as HS1 by (intros HS1; by eapply Hdisj).
      pose proof (Hskip _ S1 m1 None H1 HS1) as Hnone.
      destruct Hwritten as [Hd|[v Hv]]; [by rewrite Hd in Hnone|by rewrite Hv in Hnone]. }
    by rewrite !(Hskip _ S2 m2 _ H2 HS2).
Qed.

(** C7 (amended). A publish step leaves unchanged every series other
    than these: for the queue thread the series of
    [celery_tasks_by_queue] of its host named after a queue of the
    response; for the worker thread the series of
    [celery_tasks_by_worker] of its host named after a worker of the
    response, and the two series of [celery_workers] of its host. A
    queue or a worker that is no longer in the response keeps the values
    it had. *)
Theorem publish_leaves_other_series
    (flower_host : string) (data : value) (r : registry) (k : series) :
  ((∀ q_info name,
      q_info ∈ entries "active_queues" data →
      py_getitem q_info "name" = Ok name →
      k ≠ (TASKS_QUEUE, [flower_host; py_str name])) →
   exec (convert_data_to_prometheus QueueMonitorThread flower_host data) r !! k = r !! k)
  ∧ (k ≠ (WORKERS, [flower_host; "online"]) →
     k ≠ (WORKERS, [flower_host; "offline"]) →
     (∀ w_info hostname c,
        w_info ∈ entries "data" data →
        py_getitem w_info "hostname" = Ok hostname →
        c ∈ counters →
        k ≠ (TASKS_WORKER, [flower_host; py_str hostname; c.1])) →
     exec (convert_data_to_prometheus WorkerMonitorThread flower_host data) r !! k
     = r !! k).
Proof.
  split.
  - intros Hk. apply (always_frame _ _ _ _ (convert_always _ _ _)).
    intros (q & name & Hq & Hname & ->). by eapply Hk.
  - intros Hon Hoff Hk. apply (always_frame _ _ _ _ (convert_always _ _ _)).
    intros [-> | [-> | (w & hn & c & Hw & Hhn & Hc & ->)]]; [done|done|].
    by eapply Hk.
Qed.

(** C8. A publish step only sets: a [set] call leaves its value in the
    series whatever was there, and the calls of the step do not depend on
    the registry. So a publish step applied twice on the same payload
    leaves the registry the first application left, and the publish
    steps of two threads with distinct hosts commute, every series they
    touch having the thread's host as its flower label. *)
Theorem publish_idempotent_and_commutes
    (p1 p2 : poller) (h1 h2 : string) (d1 d2 : value) (r : registry) :
  h1 ≠ h2 →
  exec (convert_data_to_prometheus p1 h1 d1)
       (exec (convert_data_to_prometheus p1 h1 d1) r)
  = exec (convert_data_to_prometheus p1 h1 d1) r
  ∧ exec (convert_data_to_prometheus p2 h2 d2)
         (exec (convert_data_to_prometheus p1 h1 d1) r)
    = exec (convert_data_to_prometheus p1 h1 d1)
           (exec (convert_data_to_prometheus p2 h2 d2) r)
  ∧ (∀ r', convert_data_to_prometheus p1 h1 d1 r' = convert_data_to_prometheus p1 h1 d1 r)
  ∧ (∀ (g : gauge) (lv : list string) (v : gval) (r' : registry),
       apply_event r' (ESet g lv v) !! (g, lv) = Some v)
  ∧ Forall (λ ev, ∃ g rest, event_series ev = Some (g, h1 :: rest))
           (events_of (convert_data_to_prometheus p1 h1 d1) r).
Proof.
  intros Hne. split; [|split; [|split; [|split]]].
  - eapply exec_idempotent, convert_always.
  - eapply exec_commute; [apply convert_always|apply convert_always|].
    intros k [rest1 Hk1]%publish_series_host [rest2 Hk2]%publish_series_host.
    congruence.
  - intros r'. eapply always_indep, convert_always.
  - intros g lv v r'. simpl. apply lookup_insert_eq.
  - eapply Forall_impl; [apply (always_events _ _ r (convert_always p1 h1 d1))|].
    intros ev ([g lv] & Hk & [rest Hrest]%publish_series_host).
    simpl in Hrest. subst lv. by exists g, rest.
Qed.

(** ** The turns of the loop, whatever the reply *)

Lemma outcome_yields {A} (m : M A) evs res r : yields m evs res → outcome m r = res.
Proof. intros Hm. unfold outcome. by rewrite Hm. Qed.

Lemma events_yields {A} (m : M A) evs res r : yields m evs res → events_of m r = evs.
Proof. intros Hm. unfold events_of. by rewrite Hm. Qed.

Lemma call_on_turn_event (S : series → Prop) ev : call_on S ev → turn_event S ev.
Proof.
  intros (k & Hk & HS). destruct ev; simpl in *; try done;
    intros k' Hk'; simpl in Hk'; congruence.
Qed.

Lemma cycle_success p host data evs :
  yields (convert_data_to_prometheus p host data) evs (Ok tt) →
  yields (cycle p host (Response 200 (Some data)))
         ([ELog (MonitorLogger host) DEBUG ("Getting workers data from " +:+ host);
           EGet (endpoint p host)] ++ evs ++ [ESleep 1])
         (Ok tt).
Proof.
  intros Hc. unfold cycle, log, sleep. rewrite decide_False by (intros Hne; by apply Hne).
  eapply (yields_bind_eq _ _ [_]); [apply yields_emit| |reflexivity].
  eapply (yields_bind_eq _ _ [_]); [apply yields_emit| |reflexivity].
  eapply (yields_bind_eq _ _ []); [apply yields_lift| |reflexivity].
  eapply yields_bind; [apply Hc|apply yields_emit].
Qed.

Lemma cycle_no_json p host :
  yields (cycle p host (Response 200 None))
         [ELog (MonitorLogger host) DEBUG ("Getting workers data from " +:+ host);
          EGet (endpoint p host)]
         (Raise JSONDecodeError).
Proof.
  unfold cycle, log. rewrite decide_False by (intros Hne; by apply Hne).
  eapply (yields_bind_eq _ _ [_]); [apply yields_emit| |reflexivity].
  eapply (yields_bind_eq _ _ [_]); [apply yields_emit| |reflexivity].
  apply yields_bind_raise, yields_lift.
Qed.

Lemma cycle_other_error p host :
  yields (cycle p host OtherRequestError)
         [ELog (MonitorLogger host) DEBUG ("Getting workers data from " +:+ host);
          EGet (endpoint p host)]
         (Raise RequestException).
Proof.
  unfold cycle, log.
  eapply (yields_bind_eq _ _ [_]); [apply yields_emit| |reflexivity].
  eapply (yields_bind_eq _ _ [_]); [apply yields_emit| |reflexivity].
  apply yields_lift.
Qed.

(** Every turn: the debug line, one request to the endpoint, a middle
    without request or sleep, and the sleep of the reply when the turn
    gets to its end. *)
Lemma cycle_shape p host reply :
  ∃ body res,
    yields (cycle p host reply)
           ([ELog (MonitorLogger host) DEBUG ("Getting workers data from " +:+ host);
             EGet (endpoint p host)]
            ++ body ++ (if is_ok res then [ESleep (reply_sleep reply)] else []))
           res
    ∧ Forall (turn_event (reply_series p host reply)) body.
Proof.
  destruct reply as [msg| |status_code [data|]].
  - exists [ELog (MonitorLogger host) ERROR
                 ("Error receiving data from " +:+ host +:+ " - " +:+ msg)], (Ok tt).
    split; [apply cycle_connection_error|]. by repeat constructor.
  - exists [], (Raise RequestException). split; [apply cycle_other_error|constructor].
  - destruct (decide (status_code = 200)) as [->|Hne].
    + destruct (convert_always p host data) as (evs & [[]|e] & Hc & Hevs).
      * exists evs, (Ok tt). split; [by apply cycle_success|].
        eapply Forall_impl; [apply Hevs|]. intros ev Hev. apply call_on_turn_event.
        destruct Hev as (k & Hk & HS). by exists k.
      * exists evs, (Raise e). split.
        { simpl. rewrite app_nil_r. by apply cycle_convert_raise. }
        eapply Forall_impl; [apply Hevs|]. intros ev Hev. apply call_on_turn_event.
        destruct Hev as (k & Hk & HS). by exists k.
    + exists [ELog (MonitorLogger host) ERROR
                   ("Error receiving data from " +:+ host +:+ ". " +:+
                    "Host responded with HTTP " +:+ pretty status_code)], (Ok tt).
      split; [by apply cycle_bad_status|]. by repeat constructor.
  - destruct (decide (status_code = 200)) as [->|Hne].
    + exists [], (Raise JSONDecodeError). split; [apply cycle_no_json|constructor].
    + exists [ELog (MonitorLogger host) ERROR
                   ("Error receiving data from " +:+ host +:+ ". " +:+
                    "Host responded with HTTP " +:+ pretty status_code)], (Ok tt).
      split; [by apply cycle_bad_status|]. by repeat constructor.
Qed.

Lemma requests_of_app evs evs' : requests_of (evs ++ evs') = requests_of evs ++ requests_of evs'.
Proof. apply List.filter_app. Qed.

Lemma sleeps_of_app evs evs' : sleeps_of (evs ++ evs') = sleeps_of evs ++ sleeps_of evs'.
Proof. apply omap_app. Qed.

Lemma turn_events_quiet (S : series → Prop) body :
  Forall (turn_event S) body →
  requests_of body = [] ∧ sleeps_of body = [] ∧ root_logs body = []
  ∧ Forall (touches S) body.
Proof.
  induction 1 as [|ev body Hev _ (Hreq & Hsl & Hroot & Htouch)]; [by repeat split|].
  destruct ev as [g lv|g lv v|[] lvl msg| |]; simpl in *; try done;
    (split; [done|split; [done|split; [done|by constructor]]]).
Qed.

Lemma touches_mono (S S' : series → Prop) ev :
  (∀ k, S k → S' k) → touches S ev → touches S' ev.
Proof. intros HS Hev k Hk. by apply HS, Hev. Qed.

(** The loop on any replies: it does not read the registry; it makes one
    request per turn begun, each to the endpoint; its gauge calls are
    those of the publish steps of its replies; and while it is running it
    has slept once per turn. *)
Lemma get_metrics_shape p host replies :
  ∃ evs res n,
    yields (get_metrics p host replies) evs res
    ∧ Forall (touches (λ k, Exists (λ reply, reply_series p host reply k) replies)) evs
    ∧ root_logs evs = []
    ∧ requests_of evs = replicate n (EGet (endpoint p host))
    ∧ (n ≤ length replies)%nat
    ∧ (res = Ok tt → n = length replies ∧ sleeps_of evs = map reply_sleep replies)
    ∧ (∀ e, res = Raise e → (0 < n)%nat ∧ length (sleeps_of evs) = (n - 1)%nat).
Proof.
  induction replies as [|reply rest (evs & res & n & Hloop & Htouch & Hroot & Hreq & Hn & Hok & Hraise)].
  { exists [], (Ok tt), 0%nat. simpl. split; [apply yields_ret|].
    repeat split; try done; constructor. }
  destruct (cycle_shape p host reply) as (body & res1 & Hturn & Hbody).
  destruct (turn_events_quiet _ _ Hbody) as (Hbreq & Hbsl & Hbroot & Hbtouch).
  assert (Forall (touches (λ k, Exists (λ reply', reply_series p host reply' k)
                                 (reply :: rest))) body) as Hbtouch'.
  { eapply Forall_impl; [apply Hbtouch|]. intros ev Hev.
    eapply touches_mono; [|apply Hev]. intros k Hk. by left. }
  destruct res1 as [[]|e]; simpl in Hturn.
  - exists (([ELog (MonitorLogger host) DEBUG ("Getting workers data from " +:+ host);
              EGet (endpoint p host)] ++ body ++ [ESleep (reply_sleep reply)]) ++ evs),
           res, (S n).
    split; [simpl get_metrics; by eapply yields_bind|].
    split.
    { apply Forall_app. split.
      - apply Forall_app. split; [by repeat constructor|].
        apply Forall_app. split; [done|by repeat constructor].
      - eapply Forall_impl; [apply Htouch|]. intros ev Hev.
        eapply touches_mono; [|apply Hev]. intros k Hk. by right. }
    split.
    { unfold root_logs in *. rewrite !List.filter_app, Hbroot, Hroot. done. }
    split.
    { rewrite !requests_of_app, Hbreq, Hreq. done. }
    split; [simpl; lia|]. split.
    + intros Hres. destruct (Hok Hres) as [-> Hsl]. split; [done|].
      rewrite !sleeps_of_app, Hbsl, Hsl. done.
    + intros e Hres. destruct (Hraise e Hres) as [Hpos Hsl]. split; [lia|].
      rewrite !sleeps_of_app, Hbsl. simpl. rewrite Hsl. lia.
  - exists ([ELog (MonitorLogger host) DEBUG ("Getting workers data from " +:+ host);
             EGet (endpoint p host)] ++ body ++ []), (Raise e), 1%nat.
    split; [by apply get_metrics_raise|].
    split.
    { apply Forall_app. split; [by repeat constructor|].
      apply Forall_app. split; [done|constructor]. }
    split.
    { unfold root_logs in *. rewrite !List.filter_app, Hbroot. done. }
    split.
    { rewrite !requests_of_app, Hbreq. done. }
    split; [simpl; lia|]. split; [done|].
    intros e' _. split; [lia|]. rewrite !sleeps_of_app, Hbsl. done.
Qed.

Lemma touches_untouched (S : series → Prop) evs (k : series) c :
  Forall (touches S) evs → ¬ S k → fold_left (cell_step k) evs c = c.
Proof.
  intros Hevs HS. apply cell_untouched.
  eapply Forall_impl; [apply Hevs|]. intros ev Hev Hk. by apply HS, Hev.
Qed.

Lemma publish_series_gauge p host data (k : series) :
  publish_series p host data k → k.1 ∈ gauges_of p.
Proof.
  destruct p; simpl.
  - intros (q & name & _ & _ & ->). by left.
  - intros [-> | [-> | (w & hn & c & _ & _ & _ & ->)]]; simpl; [by left|by left|].
    right. by left.
Qed.

Lemma reply_series_own p host reply (k : series) :
  reply_series p host reply k → k.1 ∈ gauges_of p ∧ ∃ rest, k.2 = host :: rest.
Proof.
  destruct reply as [| |status_code [data|]]; simpl; try done.
  intros [_ Hk]. split; [by eapply publish_series_gauge|by eapply publish_series_host].
Qed.

(** X1. The poll loop makes one GET per turn it begins, each to the
    endpoint of the thread; while it is running it has slept once per
    turn, 5 seconds after a connection error and 1 second after any other
    reply; when a turn raises, the loop ends without the sleep of that
    turn. *)
Theorem loop_one_request_and_sleep_per_turn
    (p : poller) (flower_host : string) (replies : list (http_reply gval))
    (r : registry) :
  ∃ n,
    requests_of (events_of (get_metrics p flower_host replies) r)
    = replicate n (EGet (endpoint p flower_host))
    ∧ (n ≤ length replies)%nat
    ∧ (outcome (get_metrics p flower_host replies) r = Ok tt →
       n = length replies
       ∧ sleeps_of (events_of (get_metrics p flower_host replies) r)
         = map reply_sleep replies)
    ∧ (∀ e, outcome (get_metrics p flower_host replies) r = Raise e →
       (0 < n)%nat
       ∧ length (sleeps_of (events_of (get_metrics p flower_host replies) r))
         = (n - 1)%nat).
Proof.
  destruct (get_metrics_shape p flower_host replies)
    as (evs & res & n & Hloop & _ & _ & Hreq & Hn & Hok & Hraise).
  exists n. rewrite (events_yields _ _ _ r Hloop), (outcome_yields _ _ _ r Hloop).
  split; [done|]. split; [done|]. split; [exact Hok|exact Hraise].
Qed.

(** X2. The poll loop calls no gauge outside its own: every gauge call of
    a thread is on one of the gauges of its kind, with the host of the
    thread as flower label, and on a series one of its replies names;
    the loop never calls the root logger. *)
Theorem loop_touches_only_own_series
    (p : poller) (flower_host : string) (replies : list (http_reply gval))
    (r : registry) :
  Forall (λ ev, ∀ k : series,
            event_series ev = Some k →
            k.1 ∈ gauges_of p
            ∧ (∃ rest, k.2 = flower_host :: rest)
            ∧ ∃ data, Response 200 (Some data) ∈ replies
                      ∧ publish_series p flower_host data k)
         (events_of (get_metrics p flower_host replies) r)
  ∧ root_logs (events_of (get_metrics p flower_host replies) r) = [].
Proof.
  destruct (get_metrics_shape p flower_host replies)
    as (evs & res & n & Hloop & Htouch & Hroot & _).
  rewrite (events_yields _ _ _ r Hloop). split; [|exact Hroot].
  eapply Forall_impl; [apply Htouch|]. intros ev Hev k Hk.
  apply Hev in Hk. apply Exists_exists in Hk as (reply & Hin & Hreply).
  destruct (reply_series_own _ _ _ _ Hreply) as [Hg Hh].
  split; [exact Hg|]. split; [exact Hh|].
  destruct reply as [| |status_code [data|]]; simpl in Hreply; try done.
  destruct Hreply as [-> Hpub]. exists data. split; [|exact Hpub].
  exact Hin.
Qed.

(** X3. A series that no 200 reply of the loop names keeps its value
    through the whole loop, whatever the turns do; after a thread is
    constructed and run, a series of its gauges that was known at
    construction and that no reply names reads 0. *)
Theorem loop_leaves_unnamed_series
    (p : poller) (flower_host : string) (replies : list (http_reply gval))
    (r : registry) (k : series) :
  (∀ data, Response 200 (Some data) ∈ replies → ¬ publish_series p flower_host data k) →
  exec (get_metrics p flower_host replies) r !! k = r !! k
  ∧ (k.1 ∈ gauges_of p → is_Some (r !! k) →
     exec (monitor_thread p flower_host replies) r !! k = Some fzero).
Proof.
  intros Hunnamed.
  assert (∀ r', exec (get_metrics p flower_host replies) r' !! k = r' !! k) as Hframe.
  { intros r'. destruct (get_metrics_shape p flower_host replies)
      as (evs & res & n & Hloop & Htouch & _).
    rewrite (exec_yields _ _ _ _ Hloop), replay_lookup.
    apply (touches_untouched _ _ _ _ Htouch).
    intros (reply & Hin & Hreply)%Exists_exists.
    destruct reply as [| |status_code [data|]]; simpl in Hreply; try done.
    destruct Hreply as [-> Hpub]. apply (Hunnamed data); [|exact Hpub].
    exact Hin. }
  split; [apply Hframe|]. intros Hg [v Hv].
  unfold monitor_thread. rewrite (exec_bind _ _ _ tt) by apply init_outcome.
  unfold run. rewrite (exec_bind _ _ _ tt) by done. rewrite exec_log, Hframe.
  unfold init. rewrite (exec_bind _ _ _ tt) by done.
  rewrite (exec_bind _ _ _ tt) by done. rewrite !exec_log, setup_metrics_lookup.
  rewrite decide_True by done. by rewrite Hv.
Qed.

Lemma replay_commute (S1 S2 : series → Prop) (evs1 evs2 : list event) (r : registry) :
  Forall (touches S1) evs1 → Forall (touches S2) evs2 →
  (∀ k, S1 k → S2 k → False) →
  replay (replay r evs1) evs2 = replay (replay r evs2) evs1.
Proof.
  intros H1 H2 Hdisj. apply map_eq. intros k. rewrite !replay_lookup.
  destruct (cell_shape k evs1) as [Hid|Hwritten].
  - by rewrite !Hid.
  - assert (¬ S2 k) as HS2.
    { intros HS2. assert (¬ S1 k) as HS1 by (intros HS1; by eapply Hdisj).
      pose proof (touches_untouched S1 evs1 k None H1 HS1) as Hnone.
      destruct Hwritten as [Hd|[v Hv]]; [by rewrite Hd in Hnone|by rewrite Hv in Hnone]. }
    by rewrite !(touches_untouched S2 evs2 k _ H2 HS2).
Qed.

Lemma gauges_of_disjoint p1 p2 g : p1 ≠ p2 → g ∈ gauges_of p1 → g ∈ gauges_of p2 → False.
Proof.
  destruct p1, p2; simpl; try done; intros _.
  - intros ->%list_elem_of_singleton [?|?%list_elem_of_singleton]%elem_of_cons; done.
  - intros [?|?%list_elem_of_singleton]%elem_of_cons ->%list_elem_of_singleton; done.
Qed.

(** X4. The poll loop does not read the registry, and the loops of two
    threads that differ in kind or in host commute: whichever runs
    first, the registry is the same afterwards. *)
Theorem loops_of_distinct_threads_commute
    (p1 p2 : poller) (h1 h2 : string) (replies1 replies2 : list (http_reply gval))
    (r : registry) :
  p1 ≠ p2 ∨ h1 ≠ h2 →
  exec (get_metrics p2 h2 replies2) (exec (get_metrics p1 h1 replies1) r)
  = exec (get_metrics p1 h1 replies1) (exec (get_metrics p2 h2 replies2) r)
  ∧ (∀ r', get_metrics p1 h1 replies1 r' = get_metrics p1 h1 replies1 r).
Proof.
  intros Hdiff.
  destruct (get_metrics_shape p1 h1 replies1) as (evs1 & res1 & n1 & Hloop1 & Htouch1 & _).
  destruct (get_metrics_shape p2 h2 replies2) as (evs2 & res2 & n2 & Hloop2 & Htouch2 & _).
  split; [|intros r'; by rewrite !Hloop1].
  rewrite !(exec_yields _ _ _ _ Hloop1), !(exec_yields _ _ _ _ Hloop2).
  eapply (replay_commute
            (λ k, k.1 ∈ gauges_of p1 ∧ ∃ rest, k.2 = h1 :: rest)
            (λ k, k.1 ∈ gauges_of p2 ∧ ∃ rest, k.2 = h2 :: rest)).
  - eapply Forall_impl; [apply Htouch1|]. intros ev Hev.
    eapply touches_mono; [|apply Hev].
    intros k (reply & _ & Hreply)%Exists_exists. by eapply reply_series_own.
  - eapply Forall_impl; [apply Htouch2|]. intros ev Hev.
    eapply touches_mono; [|apply Hev].
    intros k (reply & _ & Hreply)%Exists_exists. by eapply reply_series_own.
  - intros k [Hg1 [rest1 Hk1]] [Hg2 [rest2 Hk2]].
    destruct Hdiff as [Hp|Hh]; [by eapply gauges_of_disjoint|congruence].
Qed.

(** X5. A 200 reply whose body is not JSON ends the thread with the
    decoding error, and an exception of the request that is no
    connection error ends it with that exception: after the debug line
    and the request nothing more happens, no gauge is called, no sleep is
    made, later replies are never asked for and the registry is as
    before. *)
Theorem undecodable_reply_ends_thread
    (p : poller) (flower_host : string) (rest : list (http_reply gval)) (r : registry) :
  get_metrics p flower_host (Response 200 None :: rest) r
  = ([ELog (MonitorLogger flower_host) DEBUG ("Getting workers data from " +:+ flower_host);
      EGet (endpoint p flower_host)], Raise JSONDecodeError)
  ∧ get_metrics p flower_host (OtherRequestError :: rest) r
    = ([ELog (MonitorLogger flower_host) DEBUG ("Getting workers data from " +:+ flower_host);
        EGet (endpoint p flower_host)], Raise RequestException)
  ∧ exec (get_metrics p flower_host (Response 200 None :: rest)) r = r
  ∧ exec (get_metrics p flower_host (OtherRequestError :: rest)) r = r
  ∧ outcome (run p flower_host (Response 200 None :: rest)) r = Raise JSONDecodeError
  ∧ outcome (run p flower_host (OtherRequestError :: rest)) r = Raise RequestException.
Proof.
  pose proof (get_metrics_raise _ _ _ rest _ _ (cycle_no_json p flower_host)) as Hjson.
  pose proof (get_metrics_raise _ _ _ rest _ _ (cycle_other_error p flower_host)) as Hother.
  split; [apply Hjson|]. split; [apply Hother|].
  split; [by rewrite (exec_yields _ _ _ _ Hjson)|].
  split; [by rewrite (exec_yields _ _ _ _ Hother)|].
  split.
  - eapply outcome_yields. unfold run, log.
    eapply yields_bind; [apply yields_emit|apply Hjson].
  - eapply outcome_yields. unfold run, log.
    eapply yields_bind; [apply yields_emit|apply Hother].
Qed.

(** X6. After any number of turns that end in a retry, a turn with a 200
    reply publishes as if nothing had failed: when the publish step on
    its payload completes, the loop is still running and the registry is
    the one the publish step alone leaves. *)
Theorem loop_recovers_after_retries
    (p : poller) (flower_host : string) (retried : list (http_reply gval))
    (data : value) (r : registry) :
  Forall (λ reply, reply_retried reply = true) retried →
  outcome (convert_data_to_prometheus p flower_host data) r = Ok tt →
  outcome (get_metrics p flower_host (retried ++ [Response 200 (Some data)])) r = Ok tt
  ∧ exec (get_metrics p flower_host (retried ++ [Response 200 (Some data)])) r
    = exec (convert_data_to_prometheus p flower_host data) r
  ∧ sets_of (events_of (get_metrics p flower_host
                          (retried ++ [Response 200 (Some data)])) r)
    = sets_of (events_of (convert_data_to_prometheus p flower_host data) r).
Proof.
  intros Hretried Hok.
  destruct (convert_always p flower_host data) as (evs & res & Hconv & _).
  rewrite (outcome_yields _ _ _ r Hconv) in Hok. subst res.
  pose proof (cycle_success _ _ _ _ Hconv) as Hturn.
  assert (yields (get_metrics p flower_host (retried ++ [Response 200 (Some data)]))
            (flat_map (retry_events p flower_host) retried
             ++ ([ELog (MonitorLogger flower_host) DEBUG
                       ("Getting workers data from " +:+ flower_host);
                  EGet (endpoint p flower_host)] ++ evs ++ [ESleep 1]) ++ [])
            (Ok tt)) as Hloop.
  { induction Hretried as [|reply rest Hreply _ IH]; simpl.
    - eapply yields_bind_eq; [apply Hturn|apply yields_ret|reflexivity].
    - eapply yields_bind_eq; [by apply cycle_retried|apply IH|].
      by rewrite <- app_assoc. }
  rewrite (outcome_yields _ _ _ r Hloop), (exec_yields _ _ _ r Hloop),
    (events_yields _ _ _ r Hloop), (exec_yields _ _ _ r Hconv),
    (events_yields _ _ _ r Hconv).
  assert (Forall (λ ev, event_series ev = None) (flat_map (retry_events p flower_host) retried))
    as Hquiet.
  { clear. induction retried as [|reply rest IH]; simpl; [constructor|].
    apply Forall_app. split; [apply retry_events_no_call|done]. }
  split; [done|]. split.
  - rewrite replay_app, (replay_no_call _ _ Hquiet), app_nil_r.
    rewrite !replay_app. done.
  - rewrite !sets_of_app, app_nil_r. simpl.
    assert (sets_of (flat_map (retry_events p flower_host) retried) = []) as ->.
    { clear -Hquiet. induction Hquiet as [|ev evs' Hev _ IH]; [done|].
      destruct ev; simpl in *; done. }
    simpl. by rewrite app_nil_r.
Qed.

(** ** Payloads the publish steps do not get through *)

(** X7. A payload that is not an object makes either publish step raise
    [AttributeError], and an object whose entries key holds a value that
    cannot be iterated (null, a number, a boolean) makes it raise
    [TypeError]; in both cases the step has made no call at all: the
    worker thread does not write its two counts either. *)
Theorem malformed_payload_raises_without_calls
    (p : poller) (flower_host : string) (r : registry) :
  (∀ data,
     (∀ fields, data ≠ JObj fields) →
     convert_data_to_prometheus p flower_host data r = ([], Raise AttributeError))
  ∧ (∀ fields v,
       dict_lookup (payload_key p) fields = Some v →
       is_ok (py_iter v) = false →
       convert_data_to_prometheus p flower_host (JObj fields) r = ([], Raise TypeError))
  ∧ py_iter JNull = Raise TypeError
  ∧ (∀ n, py_iter (JInt n) = Raise TypeError)
  ∧ (∀ b, py_iter (JBool b) = Raise TypeError)
  ∧ (∀ x, py_iter (JFloat x) = Raise TypeError).
Proof.
  split; [|split; [|by repeat split]].
  - intros data Hshape.
    assert (py_get data (payload_key p) (JArr []) = Raise AttributeError) as Hget.
    { destruct data; try done. by destruct (Hshape fields). }
    destruct p; unfold convert_data_to_prometheus; simpl payload_key in Hget;
      rewrite Hget; by rewrite bind_eq.
  - intros fields v Hv Hiter.
    assert (py_iter v = Raise TypeError) as Hraise by (by destruct v).
    destruct p; unfold convert_data_to_prometheus; simpl py_get; simpl in Hv;
      rewrite Hv; simpl default; rewrite lift_bind, Hraise; by rewrite bind_eq.
Qed.

Lemma fails_with_bind_l {A B} P (m : M A) (k : A → M B) :
  fails_with P m → fails_with P (m ≫= k).
Proof.
  intros (evs & e & Hm & HP). exists evs, e. split; [by apply yields_bind_raise|done].
Qed.

Lemma fails_with_bind {A B} P (m : M A) (k : A → M B) :
  always P m → (∀ a evs, yields m evs (Ok a) → fails_with P (k a)) →
  fails_with P (m ≫= k).
Proof.
  intros (evs & [a|e] & Hm & HP) Hk.
  - destruct (Hk a evs Hm) as (evs' & e & Hk' & HP'). exists (evs ++ evs'), e.
    split; [by eapply yields_bind|by apply Forall_app].
  - exists evs, e. split; [by apply yields_bind_raise|done].
Qed.

Lemma fails_with_lift {A} P (e : exn) : fails_with P (lift (Raise e : result A)).
Proof. exists [], e. split; [apply yields_lift|constructor]. Qed.

Lemma fails_with_mono {A} (P Q : event → Prop) (m : M A) :
  (∀ ev, P ev → Q ev) → fails_with P m → fails_with Q m.
Proof.
  intros HPQ (evs & e & Hm & HP). exists evs, e. split; [done|].
  eapply Forall_impl; eauto.
Qed.

(** A queue entry the loop body does not get through: the body raises
    before it sets anything. *)
Lemma queue_body_not_ok host q :
  queue_ok q = false →
  fails_with (λ ev, match ev with ELabels _ _ => True | _ => False end) (queue_body host q).
Proof.
  unfold queue_ok, queue_body. intros Hq.
  destruct (py_getitem q "name") as [name|e]; [|apply fails_with_bind_l, fails_with_lift].
  apply fails_with_bind; [apply always_lift|]. intros name' _ _.
  apply fails_with_bind; [by apply always_labels|].
  intros child ? ->%yields_labels_inv.
  destruct (py_getitem q "messages") as [m|e]; [|apply fails_with_bind_l, fails_with_lift].
  apply fails_with_bind; [apply always_lift|].
  intros m' ? [_ Hm]%yields_lift_inv. injection Hm as ->.
  simpl in Hq. unfold gauge_set. destruct (py_float m) as [x|e]; [done|].
  apply fails_with_bind_l, fails_with_lift.
Qed.

Lemma labels_only_no_sets evs :
  Forall (λ ev, match ev with ELabels _ _ => True | _ => False end) evs → sets_of evs = [].
Proof. induction 1 as [|ev evs Hev _ IH]; [done|]. by destruct ev. Qed.

Lemma for_each_stops {A} (body : A → M unit) (calls : A → list event) good bad rest evs e :
  (∀ x, x ∈ good → yields (body x) (calls x) (Ok tt)) →
  yields (body bad) evs (Raise e) →
  yields (for_each (good ++ bad :: rest) body) (flat_map calls good ++ evs) (Raise e).
Proof.
  intros Hgood Hbad. induction good as [|x good IH]; simpl.
  - by apply yields_bind_raise.
  - rewrite <- app_assoc. eapply yields_bind; [apply Hgood; left|].
    apply IH. intros y Hy. apply Hgood. by right.
Qed.

(** The first entry a boolean test rejects. *)
Lemma first_rejected {A} (ok : A → bool) (items : list A) :
  Forall (λ x, ok x = true) items
  ∨ ∃ good bad rest,
      items = good ++ bad :: rest ∧ Forall (λ x, ok x = true) good ∧ ok bad = false.
Proof.
  induction items as [|x items [IH|(good & bad & rest & -> & Hgood & Hbad)]].
  - left. constructor.
  - destruct (ok x) eqn:Hx.
    + left. by constructor.
    + right. exists [], x, items. by repeat split.
  - destruct (ok x) eqn:Hx.
    + right. exists (x :: good), bad, rest. repeat split; [|done]. by constructor.
    + right. exists [], x, (good ++ bad :: rest). by repeat split.
Qed.

(** X8. On a payload whose [active_queues] is a list, the queue
    thread's publish step completes exactly when the loop body gets
    through every entry; otherwise it raises at the first entry it does
    not get through: the entries before it have been written, that entry
    and those after it have not. *)
Theorem queue_publish_stops_at_first_fault
    (flower_host : string) (fields : list (string * value)) (qs : list value)
    (r : registry) :
  dict_lookup "active_queues" fields = Some (JArr qs) →
  (outcome (convert_data_to_prometheus QueueMonitorThread flower_host (JObj fields)) r
   = Ok tt
   ↔ Forall (λ q_info, queue_ok q_info = true) qs)
  ∧ (∀ good bad rest,
       qs = good ++ bad :: rest →
       Forall (λ q_info, queue_ok q_info = true) good →
       queue_ok bad = false →
       (∃ e, outcome (convert_data_to_prometheus QueueMonitorThread
                        flower_host (JObj fields)) r = Raise e)
       ∧ sets_of (events_of (convert_data_to_prometheus QueueMonitorThread
                               flower_host (JObj fields)) r)
         = sets_of (events_of (convert_data_to_prometheus QueueMonitorThread
                                 flower_host (JObj [("active_queues", JArr good)])) r)).
Proof.
  intros Hqs.
  assert (∀ good bad rest,
            qs = good ++ bad :: rest →
            Forall (λ q_info, queue_ok q_info = true) good →
            queue_ok bad = false →
            ∃ evs e,
              yields (convert_data_to_prometheus QueueMonitorThread flower_host (JObj fields))
                     (flat_map (queue_calls flower_host) good ++ evs) (Raise e)
              ∧ sets_of evs = []) as Hstop.
  { intros good bad rest -> Hgood Hbad.
    destruct (queue_body_not_ok flower_host bad Hbad) as (evs & e & Hraise & Hlabels).
    exists evs, e. split; [|by apply labels_only_no_sets].
    unfold convert_data_to_prometheus. simpl py_get. rewrite Hqs. simpl default.
    eapply (yields_bind_eq _ _ []); [apply yields_lift| |reflexivity].
    eapply (yields_bind_eq _ _ []); [apply yields_lift| |reflexivity].
    apply for_each_stops; [|done]. intros q Hq. apply queue_body_ok.
    by apply (proj1 (Forall_forall _ _) Hgood). }
  split.
  - split.
    + intros Hok. destruct (first_rejected queue_ok qs)
        as [Hall|(good & bad & rest & Hsplit & Hgood & Hbad)]; [done|].
      destruct (Hstop good bad rest Hsplit Hgood Hbad) as (evs & e & Hrun & _).
      by rewrite (outcome_yields _ _ _ r Hrun) in Hok.
    + intros Hall. eapply outcome_yields.
      apply (convert_queue_ok _ _ (JArr qs) qs); [simpl; by rewrite Hqs|done|done].
  - intros good bad rest Hsplit Hgood Hbad.
    destruct (Hstop good bad rest Hsplit Hgood Hbad) as (evs & e & Hrun & Hsets).
    rewrite (outcome_yields _ _ _ r Hrun), (events_yields _ _ _ r Hrun).
    split; [by exists e|].
    rewrite (events_yields _ _ _ r
               (convert_queue_ok flower_host (JObj [("active_queues", JArr good)])
                  (JArr good) good eq_refl eq_refl Hgood)).
    by rewrite sets_of_app, Hsets, app_nil_r.
Qed.

Lemma worker_counter_not_ok (P : event → Prop) host hn w st f :
  P (ELabels TASKS_WORKER [host; py_str hn; st]) →
  is_ok (counter_value w f) = false →
  fails_with P (worker_counter host hn w st f).
Proof.
  intros HP. unfold counter_value, worker_counter. intros Hc.
  apply fails_with_bind; [by apply always_labels|].
  intros child ? ->%yields_labels_inv.
  destruct (py_get w f (JInt 0)) as [n|e]; [|apply fails_with_bind_l, fails_with_lift].
  apply fails_with_bind; [apply always_lift|].
  intros n' ? [_ Hn]%yields_lift_inv. injection Hn as ->.
  unfold gauge_set. destruct (py_float n) as [x|e]; [done|].
  apply fails_with_bind_l, fails_with_lift.
Qed.

Lemma always_call_on_labels (P : event → Prop) (S : series → Prop) :
  (∀ ev, call_on S ev → P ev) → ∀ g lv, S (g, lv) → P (ELabels g lv).
Proof. intros HP g lv HS. apply HP. by exists (g, lv). Qed.

(** A worker entry the loop body does not get through: the body raises,
    having called no gauge but [celery_tasks_by_worker]. *)
Lemma worker_body_not_ok host w on off :
  worker_ok w = false →
  fails_with (call_on (λ k, k.1 = TASKS_WORKER)) (worker_body host w on off).
Proof.
  unfold worker_ok, worker_body. intros Hw.
  destruct (py_getitem w "hostname") as [hn|e]; [|apply fails_with_bind_l, fails_with_lift].
  apply fails_with_bind; [apply always_lift|].
  intros hn' ? [_ Hhn]%yields_lift_inv. injection Hhn as ->.
  simpl in Hw.
  repeat
    match goal with
    | |- fails_with _ (worker_counter _ _ ?w ?st ?f ≫= _) =>
        destruct (is_ok (counter_value w f)) eqn:?;
        [ apply fails_with_bind;
          [by apply worker_counter_always | intros _ _ _]
        | apply fails_with_bind_l, worker_counter_not_ok; [by eexists | done] ]
    end.
  simpl in Hw.
  destruct (py_getitem w "status") as [status|e]; [done|].
  apply fails_with_bind_l, fails_with_lift.
Qed.

Lemma worker_loop_stops host good bad rest on off :
  Forall (λ w, worker_ok w = true) good →
  worker_ok bad = false →
  fails_with (call_on (λ k, k.1 = TASKS_WORKER))
             (worker_loop host (good ++ bad :: rest) on off).
Proof.
  intros Hgood Hbad. revert on off.
  induction Hgood as [|w good Hw _ IH]; intros on off; simpl.
  - by apply fails_with_bind_l, worker_body_not_ok.
  - apply fails_with_bind; [by apply worker_body_always|].
    intros counts _ _. apply IH.
Qed.

(** X9. On a payload whose [data] is a list, the worker thread's publish
    step completes exactly when the loop body gets through every entry
    and the two counts convert to floats; when some entry is not got
    through, the step raises without writing [celery_workers]: the
    online and offline counts keep the values of the turn before. *)
Theorem worker_publish_completes_iff
    (flower_host : string) (fields : list (string * value)) (ws : list value)
    (r : registry) :
  dict_lookup "data" fields = Some (JArr ws) →
  (outcome (convert_data_to_prometheus WorkerMonitorThread flower_host (JObj fields)) r
   = Ok tt
   ↔ Forall (λ w_info, worker_ok w_info = true) ws
     ∧ is_Some (float_of_int (count_online ws))
     ∧ is_Some (float_of_int (count_offline ws)))
  ∧ (¬ Forall (λ w_info, worker_ok w_info = true) ws →
     (∃ e, outcome (convert_data_to_prometheus WorkerMonitorThread
                      flower_host (JObj fields)) r = Raise e)
     ∧ sets_on WORKERS
         (events_of (convert_data_to_prometheus WorkerMonitorThread
                       flower_host (JObj fields)) r) = []
     ∧ ∀ status,
         exec (convert_data_to_prometheus WorkerMonitorThread flower_host (JObj fields)) r
         !! (WORKERS, [flower_host; status])
         = r !! (WORKERS, [flower_host; status])).
Proof.
  intros Hdata.
  assert (py_get (JObj fields) "data" (JArr []) = Ok (JArr ws)) as Hget.
  { simpl. by rewrite Hdata. }
  assert (¬ Forall (λ w_info, worker_ok w_info = true) ws →
          fails_with (call_on (λ k, k.1 = TASKS_WORKER))
            (convert_data_to_prometheus WorkerMonitorThread flower_host (JObj fields)))
    as Hstop.
  { intros Hnot. destruct (first_rejected worker_ok ws)
      as [Hall|(good & bad & rest & -> & Hgood & Hbad)]; [done|].
    unfold convert_data_to_prometheus. rewrite Hget.
    apply fails_with_bind; [apply always_lift|].
    intros v ? [_ Hv]%yields_lift_inv. injection Hv as ->.
    apply fails_with_bind; [apply always_lift|].
    intros items ? [_ Hitems]%yields_lift_inv. simpl in Hitems. injection Hitems as ->.
    by apply fails_with_bind_l, worker_loop_stops. }
  assert (Forall (λ w_info, worker_ok w_info = true) ws →
          ∃ tail,
            yields (convert_data_to_prometheus WorkerMonitorThread flower_host (JObj fields))
                   (flat_map (worker_calls flower_host) ws ++ tail)
                   (match float_of_int (count_online ws), float_of_int (count_offline ws) with
                    | Some _, Some _ => Ok tt
                    | _, _ => Raise OverflowError
                    end)) as Hall.
  { intros Hok.
    destruct (float_of_int (count_online ws)) as [x_on|] eqn:Hon.
    - destruct (float_of_int (count_offline ws)) as [x_off|] eqn:Hoff.
      + eexists. by eapply (convert_worker_ok _ _ (JArr ws) ws).
      + eexists. unfold convert_data_to_prometheus. rewrite Hget.
        eapply (yields_bind_eq _ _ []); [apply yields_lift| |reflexivity].
        eapply (yields_bind_eq _ _ []); [apply yields_lift| |reflexivity].
        eapply yields_bind; [by apply worker_loop_ok|].
        simpl. rewrite !Z.add_0_l.
        eapply yields_bind_eq; [apply yields_labels| |reflexivity].
        eapply yields_bind_eq;
          [apply (yields_gauge_set (WORKERS, _)); simpl; by rewrite Hon| |reflexivity].
        eapply yields_bind_eq; [apply yields_labels| |reflexivity].
        unfold gauge_set. simpl. rewrite Hoff. apply yields_bind_raise, yields_lift.
    - eexists. unfold convert_data_to_prometheus. rewrite Hget.
      eapply (yields_bind_eq _ _ []); [apply yields_lift| |reflexivity].
      eapply (yields_bind_eq _ _ []); [apply yields_lift| |reflexivity].
      eapply yields_bind; [by apply worker_loop_ok|].
      simpl. rewrite !Z.add_0_l.
      eapply yields_bind_eq; [apply yields_labels| |reflexivity].
      apply yields_bind_raise.
      unfold gauge_set. simpl. rewrite Hon. apply yields_bind_raise, yields_lift. }
  split.
  - split.
    + intros Hok.
      destruct (first_rejected worker_ok ws) as [Hws|(good & bad & rest & Hsplit & Hgood & Hbad)].
      * destruct (Hall Hws) as (tail & Hrun).
        rewrite (outcome_yields _ _ _ r Hrun) in Hok. split; [done|].
        destruct (float_of_int (count_online ws)); [|done].
        destruct (float_of_int (count_offline ws)); [|done].
        by split; eexists.
      * destruct Hstop as (evs & e & Hrun & _).
        { intros Hws. subst ws. apply Forall_app in Hws as [_ Hws].
          apply Forall_cons in Hws as [Hbad' _]. congruence. }
        by rewrite (outcome_yields _ _ _ r Hrun) in Hok.
    + intros (Hws & [x_on Hon] & [x_off Hoff]).
      destruct (Hall Hws) as (tail & Hrun).
      rewrite (outcome_yields _ _ _ r Hrun). by rewrite Hon, Hoff.
  - intros Hnot. destruct (Hstop Hnot) as (evs & e & Hrun & Hevs).
    rewrite (outcome_yields _ _ _ r Hrun), (events_yields _ _ _ r Hrun),
      (exec_yields _ _ _ r Hrun).
    split; [by exists e|]. split.
    + apply (sets_on_other WORKERS TASKS_WORKER); [done|].
      by apply (call_on_sets (λ k, k.1 = TASKS_WORKER)).
    + intros status. rewrite replay_lookup. apply cell_untouched.
      eapply Forall_impl; [apply Hevs|].
      intros ev (k & Hk & Hg) Hk'. rewrite Hk' in Hk. injection Hk as <-. done.
Qed.

(** ** Reading back what a publish step wrote *)

Lemma fold_cell_app k evs evs' c :
  fold_left (cell_step k) (evs ++ evs') c
  = fold_left (cell_step k) evs' (fold_left (cell_step k) evs c).
Proof. apply fold_left_app. Qed.

Lemma queue_calls_series host q ev :
  ev ∈ queue_calls host q →
  ∃ name, py_getitem q "name" = Ok name
          ∧ event_series ev = Some (TASKS_QUEUE, [host; py_str name]).
Proof.
  unfold queue_calls. destruct (py_getitem q "name") as [name|]; [|by intros ?%elem_of_nil].
  destruct (py_getitem q "messages") as [m|]; [|by intros ?%elem_of_nil].
  destruct (py_float m) as [x|]; [|by intros ?%elem_of_nil].
  intros [->|[->|[]%elem_of_nil]%elem_of_cons]%elem_of_cons; by exists name.
Qed.

(** X10. After a queue publish step that gets through every entry, the
    series of a queue reads [float] of the [messages] of the last entry
    of that name (names compared as [labels] sees them, through [str]),
    whatever it read before. *)
Theorem queue_publish_read_back
    (flower_host : string) (fields : list (string * value))
    (before after : list value) (q_info name messages : value)
    (r : registry) :
  dict_lookup "active_queues" fields = Some (JArr (before ++ q_info :: after)) →
  Forall (λ q, queue_ok q = true) (before ++ q_info :: after) →
  py_getitem q_info "name" = Ok name →
  py_getitem q_info "messages" = Ok messages →
  Forall (λ q, ∀ other, py_getitem q "name" = Ok other → py_str other ≠ py_str name)
         after →
  ∃ x,
    py_float messages = Ok x
    ∧ exec (convert_data_to_prometheus QueueMonitorThread flower_host (JObj fields)) r
      !! (TASKS_QUEUE, [flower_host; py_str name]) = Some x.
Proof.
  intros Hqs Hok Hname Hm Hafter.
  assert (∃ x, py_float messages = Ok x) as [x Hx].
  { apply Forall_app in Hok as [_ [Hq _]%Forall_cons].
    unfold queue_ok in Hq. rewrite Hname, Hm in Hq. simpl in Hq.
    destruct (py_float messages) as [x|]; [by exists x|done]. }
  exists x. split; [done|].
  rewrite (exec_yields _ _ _ r
             (convert_queue_ok flower_host (JObj fields) (JArr (before ++ q_info :: after))
                _ ltac:(simpl; by rewrite Hqs) eq_refl Hok)).
  rewrite replay_lookup, flat_map_app. simpl flat_map.
  rewrite !fold_cell_app.
  assert (queue_calls flower_host q_info
          = [ELabels TASKS_QUEUE [flower_host; py_str name];
             ESet TASKS_QUEUE [flower_host; py_str name] x])
    as ->.
  { unfold queue_calls. by rewrite Hname, Hm, Hx. }
  rewrite cell_untouched.
  - simpl. by rewrite !decide_True.
  - apply Forall_forall. intros ev (q & Hin & Hev)%list_elem_of_In%in_flat_map Hk.
    apply list_elem_of_In in Hin, Hev.
    apply queue_calls_series in Hev as (other & Hother & Hser).
    rewrite Hser in Hk. injection Hk as Hk.
    by eapply (proj1 (Forall_forall _ _) Hafter).
Qed.

Lemma counters_status_inj c c' :
  c ∈ counters → c' ∈ counters → c.1 = c'.1 → c = c'.
Proof.
  unfold counters. intros Hc Hc'.
  repeat (apply elem_of_cons in Hc as [->|Hc]);
    try (by apply elem_of_nil in Hc);
    repeat (apply elem_of_cons in Hc' as [->|Hc']);
    try (by apply elem_of_nil in Hc'); simpl; intros Heq; done.
Qed.

Lemma worker_calls_series host w ev :
  ev ∈ worker_calls host w →
  ∃ hn c, py_getitem w "hostname" = Ok hn ∧ c ∈ counters
          ∧ event_series ev = Some (TASKS_WORKER, [host; py_str hn; c.1])
          ∧ ∃ x, counter_value w c.2 = Ok x
                 ∧ (ev = ELabels TASKS_WORKER [host; py_str hn; c.1]
                    ∨ ev = ESet TASKS_WORKER [host; py_str hn; c.1] x).
Proof.
  unfold worker_calls. destruct (py_getitem w "hostname") as [hn|]; [|by intros ?%elem_of_nil].
  intros (c & Hc & Hev)%list_elem_of_In%in_flat_map.
  apply list_elem_of_In in Hc, Hev. exists hn, c. split; [done|]. split; [done|].
  unfold counter_calls in Hev. destruct (counter_value w c.2) as [x|]; [|by apply elem_of_nil in Hev].
  apply elem_of_cons in Hev as [->|Hev]; [split; [done|]; exists x; auto|].
  apply list_elem_of_singleton in Hev as ->. split; [done|]. exists x. auto.
Qed.

(** X11. After a worker publish step that completes, [celery_workers]
    of the host reads the online count and the offline count of the
    payload, and each of the seven series of a worker reads the counter
    of the last entry of that hostname (0 when the entry has no such
    field), whatever they read before. *)
Theorem worker_publish_read_back
    (flower_host : string) (fields : list (string * value)) (ws : list value)
    (r : registry) :
  dict_lookup "data" fields = Some (JArr ws) →
  outcome (convert_data_to_prometheus WorkerMonitorThread flower_host (JObj fields)) r
  = Ok tt →
  exec (convert_data_to_prometheus WorkerMonitorThread flower_host (JObj fields)) r
  !! (WORKERS, [flower_host; "online"]) = float_of_int (count_online ws)
  ∧ exec (convert_data_to_prometheus WorkerMonitorThread flower_host (JObj fields)) r
    !! (WORKERS, [flower_host; "offline"]) = float_of_int (count_offline ws)
  ∧ (∀ before w_info after hostname c,
       ws = before ++ w_info :: after →
       py_getitem w_info "hostname" = Ok hostname →
       Forall (λ w, ∀ other, py_getitem w "hostname" = Ok other →
                             py_str other ≠ py_str hostname) after →
       c ∈ counters →
       ∃ x,
         counter_value w_info c.2 = Ok x
         ∧ exec (convert_data_to_prometheus WorkerMonitorThread flower_host (JObj fields)) r
           !! (TASKS_WORKER, [flower_host; py_str hostname; c.1]) = Some x).
Proof.
  intros Hdata Hdone.
  destruct (worker_publish_completes_iff flower_host fields ws r Hdata) as [[Hok _] _].
  destruct (Hok Hdone) as (Hws & [x_on Hon] & [x_off Hoff]).
  assert (py_get (JObj fields) "data" (JArr []) = Ok (JArr ws)) as Hget.
  { simpl. by rewrite Hdata. }
  rewrite (exec_yields _ _ _ r
             (convert_worker_ok flower_host _ _ ws x_on x_off Hget eq_refl Hws Hon Hoff)).
  rewrite !replay_lookup, !fold_cell_app, Hon, Hoff.
  split; [simpl; repeat case_decide; by simplify_eq|].
  split; [simpl; repeat case_decide; by simplify_eq|].
  intros before w after hn c -> Hhn Hafter Hc.
  apply Forall_app in Hws as [_ [Hw _]%Forall_cons].
  assert (∃ x, counter_value w c.2 = Ok x) as [x Hx].
  { unfold worker_ok in Hw. apply andb_true_iff in Hw as [[_ Hcs]%andb_true_iff _].
    rewrite forallb_forall in Hcs. apply list_elem_of_In in Hc.
    specialize (Hcs c Hc). destruct (counter_value w c.2) as [x|]; [by exists x|done]. }
  exists x. split; [done|].
  rewrite replay_lookup, fold_cell_app, flat_map_app. simpl flat_map.
  rewrite !fold_cell_app.
  rewrite (cell_untouched _
             [ELabels WORKERS [flower_host; "online"];
              ESet WORKERS [flower_host; "online"] x_on;
              ELabels WORKERS [flower_host; "offline"];
              ESet WORKERS [flower_host; "offline"] x_off])
    by (by repeat constructor).
  rewrite cell_untouched.
  - apply (cell_set_all (TASKS_WORKER, [flower_host; py_str hn; c.1]) x).
    + apply Forall_forall. intros ev Hev Hk.
      apply worker_calls_series in Hev
        as (hn' & c' & Hhn' & Hc' & Hser & x' & Hx' & Hshape).
      rewrite Hhn in Hhn'. injection Hhn' as <-.
      rewrite Hser in Hk. injection Hk as Hst.
      assert (c' = c) as -> by (by apply counters_status_inj).
      rewrite Hx in Hx'. injection Hx' as <-. exact Hshape.
    + unfold worker_calls. rewrite Hhn.
      apply list_elem_of_In, in_flat_map. exists c. split; [by apply list_elem_of_In|].
      unfold counter_calls. rewrite Hx. right. by left.
  - apply Forall_forall. intros ev (w' & Hin & Hev)%list_elem_of_In%in_flat_map Hk.
    apply list_elem_of_In in Hin, Hev.
    apply worker_calls_series in Hev as (hn' & c' & Hhn' & _ & Hser & _).
    rewrite Hser in Hk. injection Hk as Hk _.
    by eapply (proj1 (Forall_forall _ _) Hafter).
Qed.

(** ** Construction of a thread *)

(** X12. Constructing a thread resets every series of the gauges of its
    kind, those of other hosts included, and nothing else: a series of
    these gauges that exists reads 0 afterwards, no series is created or
    removed, the series of the other gauges keep their values, the host
    of the thread plays no part, and constructing a second thread of the
    same kind changes nothing more. *)
Theorem init_resets_whole_gauges
    (p : poller) (flower_host : string) (r : registry) :
  (∀ k : series,
     exec (init p flower_host) r !! k
     = if decide (k.1 ∈ gauges_of p) then (λ _, fzero) <$> r !! k else r !! k)
  ∧ dom (exec (init p flower_host) r) = dom r
  ∧ (∀ other_host, exec (init p other_host) r = exec (init p flower_host) r)
  ∧ (∀ other_host,
       exec (init p other_host) (exec (init p flower_host) r)
       = exec (init p flower_host) r).
Proof.
  assert (∀ host (r' : registry) (k : series),
            exec (init p host) r' !! k
            = if decide (k.1 ∈ gauges_of p) then (λ _, fzero) <$> r' !! k else r' !! k)
    as Hlookup.
  { intros host r' k. unfold init. rewrite (exec_bind _ _ _ tt) by done.
    rewrite (exec_bind _ _ _ tt) by done. by rewrite !exec_log, setup_metrics_lookup. }
  split; [apply Hlookup|]. split; [|split].
  - apply set_eq. intros k. rewrite !elem_of_dom, Hlookup.
    destruct (decide (k.1 ∈ gauges_of p)); [|done]. by rewrite fmap_is_Some.
  - intros other. apply map_eq. intros k. by rewrite !Hlookup.
  - intros other. apply map_eq. intros k. rewrite !Hlookup.
    destruct (decide (k.1 ∈ gauges_of p)); [|done]. by destruct (r !! k).
Qed.

(** ** The endpoints *)

Lemma list_ascii_app s t :
  list_ascii_of_string (s +:+ t) = list_ascii_of_string s ++ list_ascii_of_string t.
Proof. induction s as [|a s IH]; simpl; [done|]. by rewrite <- IH. Qed.

Lemma list_ascii_inj s t : list_ascii_of_string s = list_ascii_of_string t → s = t.
Proof.
  intros Heq. rewrite <- (string_of_list_ascii_of_string s),
    <- (string_of_list_ascii_of_string t). by rewrite Heq.
Qed.

Lemma append_inj_l s s' t : s +:+ t = s' +:+ t → s = s'.
Proof.
  intros Heq. apply list_ascii_inj.
  apply (f_equal list_ascii_of_string) in Heq. rewrite !list_ascii_app in Heq.
  by apply app_inv_tail in Heq.
Qed.

(** X13. The URL a thread polls is its host followed by the path of its
    kind, and it determines both: two threads poll the same URL only when
    they have the same kind and the same host. *)
Theorem endpoint_determines_thread
    (p1 p2 : poller) (h1 h2 : string) :
  endpoint p1 h1 = endpoint p2 h2 → p1 = p2 ∧ h1 = h2.
Proof.
  intros Heq.
  assert (p1 = p2) as <-.
  { apply (f_equal (λ s, last (list_ascii_of_string s))) in Heq.
    destruct p1, p2; try done; simpl in Heq; rewrite !list_ascii_app in Heq;
      simpl in Heq; rewrite !last_app in Heq; simpl in Heq; done. }
  split; [done|]. destruct p1; by apply append_inj_l in Heq.
Qed.

End Exporter.

(** ** The claims on the integer client *)

#[global] Existing Instance IntClient.int_client.

Import IntClient.

Lemma int_float_of_int_0 : float_of_int 0 = Some fzero.
Proof. reflexivity. Qed.

Lemma int_float_of_int_exact (n : Z) : Z.abs n ≤ 2 ^ 53 → is_Some (float_of_int n).
Proof.
  intros Hn. simpl. unfold int_float_of_int. rewrite decide_True by done. by eexists.
Qed.

Lemma int_py_str_JStr (s : string) : py_str (JStr s) = s.
Proof. reflexivity. Qed.

(** The end-to-end scenarios of the exporter. *)
Example dashboard_two_published :
  let r := exec (convert_data_to_prometheus WorkerMonitorThread "flower" dashboard_two) ∅ in
  r !! (WORKERS, ["flower"; "online"]) = Some 1
  ∧ r !! (WORKERS, ["flower"; "offline"]) = Some 1
  ∧ r !! (TASKS_WORKER, ["flower"; "w1"; "succeeded"]) = Some 5
  ∧ r !! (TASKS_WORKER, ["flower"; "w1"; "received"]) = Some 0
  ∧ r !! (TASKS_WORKER, ["flower"; "w2"; "succeeded"]) = Some 0
  ∧ size r = 16%nat.
Proof. vm_compute. by repeat split. Qed.

Example queues_default_published :
  exec (convert_data_to_prometheus QueueMonitorThread "flower" queues_default) ∅
  !! (TASKS_QUEUE, ["flower"; "default"]) = Some 3.
Proof. by vm_compute. Qed.



(** C2 as stated fails: an integer [messages] that [float] rejects makes
    the publish step raise at the [set] call, and the entry gets no write
    at all. *)
Lemma queue_publish_huge_messages_counterexample :
  dict_lookup "active_queues" [("active_queues", JArr queues_huge)]
  = Some (JArr queues_huge)
  ∧ length queues_huge = 1%nat
  ∧ sets_of (events_of (convert_data_to_prometheus QueueMonitorThread "flower"
                          (JObj [("active_queues", JArr queues_huge)])) ∅) = []
  ∧ outcome (convert_data_to_prometheus QueueMonitorThread "flower"
               (JObj [("active_queues", JArr queues_huge)])) ∅
    = Raise OverflowError.
Proof. by vm_compute. Qed.

Lemma queue_publish_one_set_per_entry_witness :
  Forall (λ q_info, queue_ok q_info = true) queues_one
  ∧ outcome (convert_data_to_prometheus QueueMonitorThread "flower" queues_default) ∅
    = Ok tt
  ∧ length (sets_of (events_of (convert_data_to_prometheus QueueMonitorThread
                                  "flower" queues_default) ∅)) = 1%nat.
Proof.
  assert (Forall (λ q_info, queue_ok q_info = true) queues_one) as Hok.
  { apply List.Forall_cons; [reflexivity|apply List.Forall_nil]. }
  split; [exact Hok|].
  destruct (queue_publish_one_set_per_entry int_py_str_JStr
              "flower" [("active_queues", JArr queues_one)] ∅) as [Hpresent _].
  destruct (Hpresent queues_one eq_refl Hok) as [Hdone Hsets].
  split; [exact Hdone|].
  symmetry. exact (Forall2_length _ _ _ Hsets).
Defined.

Lemma worker_counts_sum_to_entries_witness :
  Forall (λ w_info, worker_ok w_info = true) workers_two
  ∧ Z.of_nat (length workers_two) ≤ 2 ^ 53
  ∧ ∃ x_online x_offline,
      sets_on WORKERS
        (events_of (convert_data_to_prometheus WorkerMonitorThread
                      "flower" dashboard_two) ∅)
      = [((WORKERS, ["flower"; "online"]), x_online);
         ((WORKERS, ["flower"; "offline"]), x_offline)]
      ∧ float_of_int (count_online workers_two) = Some x_online
      ∧ float_of_int (count_offline workers_two) = Some x_offline
      ∧ count_online workers_two + count_offline workers_two = 2.
Proof.
  assert (Forall (λ w_info, worker_ok w_info = true) workers_two) as Hok.
  { repeat (apply List.Forall_cons; [reflexivity|]). apply List.Forall_nil. }
  assert (Z.of_nat (length workers_two) ≤ 2 ^ 53) as Hlen by (by vm_compute).
  split; [exact Hok|]. split; [exact Hlen|].
  destruct (worker_counts_sum_to_entries int_float_of_int_exact
              "flower" [("data", JArr workers_two)] workers_two ∅ eq_refl Hok Hlen)
    as (x_on & x_off & _ & Hsets & Hon & Hoff & _ & _ & Hsum).
  exists x_on, x_off. repeat split; assumption.
Defined.

Lemma setup_resets_known_series_once_witness :
  is_Some (stale_registry !! (TASKS_QUEUE, ["flower"; "old"]))
  ∧ exec (init QueueMonitorThread "flower") stale_registry
    !! (TASKS_QUEUE, ["flower"; "old"]) = Some 0
  ∧ exec (monitor_thread QueueMonitorThread "flower"
            [ConnectionError "refused"; Response 503 None]) stale_registry
    !! (TASKS_QUEUE, ["flower"; "old"]) = Some 0.
Proof.
  assert (is_Some (stale_registry !! (TASKS_QUEUE, ["flower"; "old"]))) as Hknown.
  { exists 7. reflexivity. }
  split; [exact Hknown|].
  destruct (setup_resets_known_series_once int_float_of_int_0
              QueueMonitorThread "flower"
              [ConnectionError "refused"; Response 503 None] stale_registry)
    as (_ & _ & _ & _ & _ & _ & _ & Hreset).
  destruct (Hreset (TASKS_QUEUE, ["flower"; "old"])) as [Hinit Hloop].
  - apply list_elem_of_singleton. reflexivity.
  - exact Hknown.
  - split; [exact Hinit|]. apply Hloop.
    repeat (apply List.Forall_cons; [reflexivity|]). apply List.Forall_nil.
Defined.

Lemma failed_cycle_retries_without_writes_witness :
  ¬ http_success 503
  ∧ exec (cycle QueueMonitorThread "flower" (Response 503 None)) stale_registry
    = stale_registry
  ∧ exec (cycle QueueMonitorThread "flower" (ConnectionError "refused")) stale_registry
    = stale_registry.
Proof.
  assert (¬ http_success 503) as Hbad by (unfold http_success; lia).
  split; [exact Hbad|].
  destruct (failed_cycle_retries_without_writes (H := int_client) QueueMonitorThread "flower" []
              stale_registry) as [Hconn Hstatus].
  destruct (Hstatus 503 None Hbad) as (_ & _ & Hsame & _).
  destruct (Hconn "refused") as (_ & _ & Hsame' & _).
  split; [exact Hsame|exact Hsame'].
Defined.

Lemma missing_required_field_ends_thread_witness :
  JObj [("hostname", JStr "w2")] ∈ workers_no_status
  ∧ ∃ e,
      outcome (get_metrics WorkerMonitorThread "flower"
                 [Response 200 (Some dashboard_no_status);
                  Response 200 (Some dashboard_two)]) ∅ = Raise e.
Proof.
  assert (JObj [("hostname", JStr "w2")] ∈ workers_no_status) as Hin.
  { right. left. }
  split; [exact Hin|].
  destruct (missing_required_field_ends_thread int_float_of_int_0
              "flower" [("data", JArr workers_no_status)] workers_no_status
              [("hostname", JStr "w2")] [Response 200 (Some dashboard_two)] ∅
              eq_refl Hin (or_introl eq_refl))
    as ((e & _ & _ & Hloop & _) & _).
  exists e. exact Hloop.
Defined.

(** C7 as stated fails: the two series of [celery_workers] of the host
    are named after no worker, and a worker publish step that completes
    rewrites them, here on a payload without any worker. *)
Lemma publish_rewrites_worker_counts_counterexample :
  entries "data" dashboard_empty = []
  ∧ stale_registry !! (WORKERS, ["flower"; "online"]) = Some 3
  ∧ exec (convert_data_to_prometheus WorkerMonitorThread "flower" dashboard_empty)
         stale_registry
    !! (WORKERS, ["flower"; "online"]) = Some 0
  ∧ exec (convert_data_to_prometheus WorkerMonitorThread "flower" dashboard_empty)
         stale_registry
    !! (WORKERS, ["flower"; "online"])
    ≠ stale_registry !! (WORKERS, ["flower"; "online"]).
Proof. vm_compute. repeat split; discriminate. Qed.

Lemma publish_leaves_other_series_witness :
  exec (convert_data_to_prometheus QueueMonitorThread "flower" queues_default)
       stale_registry
  !! (TASKS_QUEUE, ["flower"; "old"]) = Some 7
  ∧ exec (convert_data_to_prometheus WorkerMonitorThread "flower" dashboard_two)
         stale_registry
    !! (TASKS_QUEUE, ["flower"; "old"]) = Some 7.
Proof.
  destruct (publish_leaves_other_series (H := int_client) "flower" queues_default
              stale_registry (TASKS_QUEUE, ["flower"; "old"])) as [Hqueue _].
  destruct (publish_leaves_other_series (H := int_client) "flower" dashboard_two
              stale_registry (TASKS_QUEUE, ["flower"; "old"])) as [_ Hworker].
  split.
  - etransitivity; [apply Hqueue|reflexivity].
    intros q_info name Hin Hname Heq.
    apply list_elem_of_singleton in Hin. subst q_info.
    injection Hname as <-. discriminate Heq.
  - etransitivity; [apply Hworker|reflexivity]; [discriminate|discriminate|].
    intros w_info hostname c _ _ _ Heq. discriminate Heq.
Defined.

Lemma publish_idempotent_and_commutes_witness :
  "flower-a" ≠ "flower-b"
  ∧ exec (convert_data_to_prometheus QueueMonitorThread "flower-b" queues_default)
         (exec (convert_data_to_prometheus WorkerMonitorThread "flower-a" dashboard_two)
               stale_registry)
    = exec (convert_data_to_prometheus WorkerMonitorThread "flower-a" dashboard_two)
           (exec (convert_data_to_prometheus QueueMonitorThread "flower-b" queues_default)
                 stale_registry)
  ∧ exec (convert_data_to_prometheus WorkerMonitorThread "flower-a" dashboard_two)
         (exec (convert_data_to_prometheus WorkerMonitorThread "flower-a" dashboard_two)
               stale_registry)
    = exec (convert_data_to_prometheus WorkerMonitorThread "flower-a" dashboard_two)
           stale_registry.
Proof.
  assert ("flower-a" ≠ "flower-b") as Hne by discriminate.
  split; [exact Hne|].
  destruct (publish_idempotent_and_commutes (H := int_client)
              WorkerMonitorThread QueueMonitorThread "flower-a" "flower-b"
              dashboard_two queues_default stale_registry Hne)
    as (Hidem & Hcomm & _).
  split; [exact Hcomm|exact Hidem].
Defined.

Lemma empty_dashboard_writes_two_zeros_witness :
  dict_lookup "data" [("data", JArr [])] = Some (JArr [])
  ∧ sets_of (events_of (convert_data_to_prometheus WorkerMonitorThread
                          "flower" dashboard_empty) stale_registry)
    = [((WORKERS, ["flower"; "online"]), 0); ((WORKERS, ["flower"; "offline"]), 0)]
  ∧ convert_data_to_prometheus QueueMonitorThread "flower" dashboard_empty stale_registry
    = ([], Ok tt).
Proof.
  split; [reflexivity|].
  destruct (empty_dashboard_writes_two_zeros int_float_of_int_0
              "flower" [("data", JArr [])] stale_registry (or_intror eq_refl))
    as (_ & Hsets & Hqueue).
  split; [exact Hsets|exact (Hqueue eq_refl)].
Defined.

Lemma status_classified_by_truthiness_witness :
  worker_ok (JObj [("hostname", JStr "w1"); ("status", JStr "")]) = true
  ∧ outcome (worker_body "flower" (JObj [("hostname", JStr "w1"); ("status", JStr "")])
               0 0) ∅
    = Ok (0, 1)
  ∧ outcome (worker_body "flower" (JObj [("hostname", JStr "w1"); ("status", JInt 7)])
               0 0) ∅
    = Ok (1, 0).
Proof.
  split; [reflexivity|]. split.
  - exact (proj1 (status_classified_by_truthiness (H := int_client) "flower"
                    (JObj [("hostname", JStr "w1"); ("status", JStr "")]) (JStr "")
                    0 0 ∅ eq_refl eq_refl)).
  - exact (proj1 (status_classified_by_truthiness (H := int_client) "flower"
                    (JObj [("hostname", JStr "w1"); ("status", JInt 7)]) (JInt 7)
                    0 0 ∅ eq_refl eq_refl)).
Defined.


(** ** The further properties on the integer client *)

Lemma loop_leaves_unnamed_series_witness :
  exec (get_metrics QueueMonitorThread "flower"
          [Response 200 (Some queues_default); ConnectionError "refused"]) stale_registry
  !! (TASKS_QUEUE, ["flower"; "old"]) = Some 7
  ∧ exec (monitor_thread QueueMonitorThread "flower"
            [Response 200 (Some queues_default); ConnectionError "refused"]) stale_registry
    !! (TASKS_QUEUE, ["flower"; "old"]) = Some 0.
Proof.
  destruct (loop_leaves_unnamed_series (H := int_client) int_float_of_int_0
              QueueMonitorThread "flower"
              [Response 200 (Some queues_default); ConnectionError "refused"]
              stale_registry (TASKS_QUEUE, ["flower"; "old"])) as [Hloop Hthread].
  - intros data Hin (q_info & name & Hq & Hname & Hk).
    apply elem_of_cons in Hin as [Hin|Hin].
    + injection Hin as ->. apply list_elem_of_singleton in Hq. subst q_info.
      injection Hname as <-. discriminate Hk.
    + apply list_elem_of_singleton in Hin. discriminate Hin.
  - split.
    + etransitivity; [exact Hloop|reflexivity].
    + apply Hthread; [apply list_elem_of_singleton; reflexivity|exists 7; reflexivity].
Defined.

Lemma loops_of_distinct_threads_commute_witness :
  (QueueMonitorThread ≠ WorkerMonitorThread ∨ "flower" ≠ "flower")
  ∧ exec (get_metrics WorkerMonitorThread "flower" [Response 200 (Some dashboard_two)])
         (exec (get_metrics QueueMonitorThread "flower"
                  [ConnectionError "refused"; Response 200 (Some queues_default)])
               stale_registry)
    = exec (get_metrics QueueMonitorThread "flower"
              [ConnectionError "refused"; Response 200 (Some queues_default)])
           (exec (get_metrics WorkerMonitorThread "flower"
                    [Response 200 (Some dashboard_two)])
                 stale_registry).
Proof.
  assert (QueueMonitorThread ≠ WorkerMonitorThread ∨ "flower" ≠ "flower") as Hdiff.
  { left. discriminate. }
  split; [exact Hdiff|].
  exact (proj1 (loops_of_distinct_threads_commute (H := int_client)
                  QueueMonitorThread WorkerMonitorThread "flower" "flower"
                  [ConnectionError "refused"; Response 200 (Some queues_default)]
                  [Response 200 (Some dashboard_two)] stale_registry Hdiff)).
Defined.

Lemma loop_recovers_after_retries_witness :
  exec (get_metrics QueueMonitorThread "flower"
          [ConnectionError "refused"; Response 503 None;
           Response 200 (Some queues_default)]) stale_registry
  = exec (convert_data_to_prometheus QueueMonitorThread "flower" queues_default)
         stale_registry.
Proof.
  refine (proj1 (proj2 (loop_recovers_after_retries (H := int_client)
                          QueueMonitorThread "flower"
                          [ConnectionError "refused"; Response 503 None]
                          queues_default stale_registry _ _))).
  - repeat (apply List.Forall_cons; [reflexivity|]). apply List.Forall_nil.
  - reflexivity.
Defined.

Lemma queue_publish_stops_at_first_fault_witness :
  queue_ok (JObj [("name", JStr "broken")]) = false
  ∧ sets_of (events_of (convert_data_to_prometheus QueueMonitorThread "flower"
                          (JObj [("active_queues", JArr queues_faulty)])) ∅)
    = sets_of (events_of (convert_data_to_prometheus QueueMonitorThread "flower"
                            (JObj [("active_queues",
                                    JArr [JObj [("name", JStr "default");
                                                ("messages", JInt 3)]])])) ∅).
Proof.
  split; [reflexivity|].
  destruct (queue_publish_stops_at_first_fault (H := int_client) "flower"
              [("active_queues", JArr queues_faulty)] queues_faulty ∅ eq_refl)
    as [_ Hstop].
  refine (proj2 (Hstop [JObj [("name", JStr "default"); ("messages", JInt 3)]]
                   (JObj [("name", JStr "broken")])
                   [JObj [("name", JStr "late"); ("messages", JInt 9)]]
                   eq_refl _ eq_refl)).
  apply List.Forall_cons; [reflexivity|apply List.Forall_nil].
Defined.

Lemma worker_publish_completes_iff_witness :
  ¬ Forall (λ w_info, worker_ok w_info = true) workers_no_status
  ∧ ∀ status,
      exec (convert_data_to_prometheus WorkerMonitorThread "flower" dashboard_no_status)
           stale_registry
      !! (WORKERS, ["flower"; status])
      = stale_registry !! (WORKERS, ["flower"; status]).
Proof.
  assert (¬ Forall (λ w_info, worker_ok w_info = true) workers_no_status) as Hnot.
  { intros Hall. inversion Hall as [|w ws _ Hrest]. inversion Hrest as [|w' ws' Hbad _].
    discriminate Hbad. }
  split; [exact Hnot|].
  destruct (worker_publish_completes_iff (H := int_client) "flower"
              [("data", JArr workers_no_status)] workers_no_status stale_registry eq_refl)
    as [_ Hstop].
  exact (proj2 (proj2 (Hstop Hnot))).
Defined.

Lemma queue_publish_read_back_witness :
  ∃ x,
    py_float (JInt 8) = Ok x
    ∧ exec (convert_data_to_prometheus QueueMonitorThread "flower"
              (JObj [("active_queues", JArr queues_twice)])) stale_registry
      !! (TASKS_QUEUE, ["flower"; "default"]) = Some x.
Proof.
  refine (queue_publish_read_back (H := int_client)
            "flower" [("active_queues", JArr queues_twice)]
            [JObj [("name", JStr "default"); ("messages", JInt 3)]] []
            (JObj [("name", JStr "default"); ("messages", JInt 8)])
            (JStr "default") (JInt 8)
            stale_registry eq_refl _ eq_refl eq_refl _).
  - repeat (apply List.Forall_cons; [reflexivity|]). apply List.Forall_nil.
  - apply List.Forall_nil.
Defined.

Lemma worker_publish_read_back_witness :
  exec (convert_data_to_prometheus WorkerMonitorThread "flower" dashboard_two)
       stale_registry
  !! (WORKERS, ["flower"; "online"]) = Some 1
  ∧ exec (convert_data_to_prometheus WorkerMonitorThread "flower" dashboard_two)
         stale_registry
    !! (WORKERS, ["flower"; "offline"]) = Some 1.
Proof.
  destruct (worker_publish_read_back (H := int_client) "flower"
              [("data", JArr workers_two)] workers_two stale_registry eq_refl eq_refl)
    as (Hon & Hoff & _).
  split; [exact Hon|exact Hoff].
Defined.

Lemma init_resets_whole_gauges_witness :
  exec (init QueueMonitorThread "another-flower") stale_registry
  !! (TASKS_QUEUE, ["flower"; "old"]) = Some 0
  ∧ exec (init QueueMonitorThread "another-flower") stale_registry
    !! (WORKERS, ["flower"; "online"]) = Some 3.
Proof.
  destruct (init_resets_whole_gauges (H := int_client) int_float_of_int_0
              QueueMonitorThread "another-flower" stale_registry) as [Hlookup _].
  split.
  - etransitivity; [apply Hlookup|reflexivity].
  - etransitivity; [apply Hlookup|reflexivity].
Defined.

Lemma endpoint_determines_thread_witness :
  endpoint QueueMonitorThread "http://flower:5555" = "http://flower:5555/api/queues/length"
  ∧ QueueMonitorThread = QueueMonitorThread
  ∧ "http://flower:5555" = "http://flower:5555".
Proof.
  split; [reflexivity|].
  exact (endpoint_determines_thread QueueMonitorThread QueueMonitorThread
           "http://flower:5555" "http://flower:5555" eq_refl).
Defined.
